(** * lmcloud: the Bluetooth client of La Marzocco machines

    A shallow embedding of [lmcloud/client_bluetooth.py] and the properties
    of its connection handling, discovery and wire payloads.

    Conventions of the embedding:
    - a Python [str] is a Rocq [string] holding the UTF-8 encoding of the
      text, so that [s.encode("utf-8")] and [bytes(s, "utf-8")] are the
      conversion to a list of bytes;
    - Python [bytes] are [list byte];
    - the object [self] is a record that is threaded through every method,
      together with the list of calls made on the BLE transport;
    - an exception is a value of [exn]; a method returns [exn + A]. *)

From Stdlib Require Import List String Ascii Bool ZArith NArith Lia.
From Stdlib.Strings Require Import Byte.
From Stdlib Require Import DecimalString.
Import ListNotations.

Local Open Scope string_scope.
Local Open Scope list_scope.

Set Implicit Arguments.
Set Warnings "-register-all".

(** ** Bytes and text *)

Definition bytes := list byte.

(** [s.encode("utf-8")] on the UTF-8 representation of [s]. *)
Definition encode_utf8 (s : string) : bytes := list_byte_of_string s.

(** ** base64.b64encode (standard alphabet, with padding) *)

Module Base64.

Definition alphabet : bytes :=
  encode_utf8
    "ABCDEFGHIJKLMNOPQRSTUVWXYZabcdefghijklmnopqrstuvwxyz0123456789+/".

Definition pad : byte := "="%byte.

Definition sextet (n : N) : byte := nth (N.to_nat (N.land n 63)) alphabet pad.

Definition group (a b c : byte) : N :=
  N.lor (N.shiftl (Byte.to_N a) 16)
        (N.lor (N.shiftl (Byte.to_N b) 8) (Byte.to_N c)).

Fixpoint b64encode (s : bytes) : bytes :=
  match s with
  | [] => []
  | [a] =>
      let n := group a x00 x00 in
      [sextet (N.shiftr n 18); sextet (N.shiftr n 12); pad; pad]
  | [a; b] =>
      let n := group a b x00 in
      [sextet (N.shiftr n 18); sextet (N.shiftr n 12);
       sextet (N.shiftr n 6); pad]
  | a :: b :: c :: rest =>
      let n := group a b c in
      sextet (N.shiftr n 18) :: sextet (N.shiftr n 12)
        :: sextet (N.shiftr n 6) :: sextet n :: b64encode rest
  end.

End Base64.

(** ** json.dumps with [separators=(",", ":")] *)

Module Json.

Local Open Scope string_scope.

Inductive json : Type :=
| JStr (s : string)
| JBool (b : bool)
| JInt (z : Z)
| JDict (items : list (string * json)).

(** The one-character text made of a double quote. *)
Definition quote : string := String "034"%char "".

Definition hex_digit (n : N) : ascii :=
  nth (N.to_nat (N.land n 15))
      (list_ascii_of_string "0123456789abcdef") "0"%char.

(** ['\\u{0:04x}'.format(n)] *)
Definition u_escape (n : N) : string :=
  String "\" (String "u"
    (String (hex_digit (N.shiftr n 12)) (String (hex_digit (N.shiftr n 8))
    (String (hex_digit (N.shiftr n 4)) (String (hex_digit n) ""))))).

(** The replacement of one code point by [py_encode_basestring_ascii]:
    everything outside [' '..'~'], the quote and the backslash are
    escaped; code points above the BMP become a surrogate pair. *)
Definition escape_code_point (n : N) : string :=
  if N.eqb n 34 then String "\" quote
  else if N.eqb n 92 then String "\" (String "\" "")
  else if N.eqb n 10 then String "\" "n"
  else if N.eqb n 13 then String "\" "r"
  else if N.eqb n 9 then String "\" "t"
  else if N.eqb n 12 then String "\" "f"
  else if N.eqb n 8 then String "\" "b"
  else if andb (N.leb 32 n) (N.leb n 126) then String (ascii_of_N n) ""
  else if N.ltb n 65536 then u_escape n
  else
    let v := N.sub n 65536 in
    u_escape (N.lor 55296 (N.land (N.shiftr v 10) 1023))
      ++ u_escape (N.lor 56320 (N.land v 1023)).

Definition cont (c : ascii) : N := N.land (N_of_ascii c) 63.

(** The code points of a text, read off its UTF-8 representation. *)
Fixpoint code_points (s : string) : list N :=
  match s with
  | EmptyString => []
  | String c0 rest =>
      let b0 := N_of_ascii c0 in
      if N.ltb b0 192 then b0 :: code_points rest
      else
        match rest with
        | String c1 rest1 =>
            if N.ltb b0 224 then
              N.lor (N.shiftl (N.land b0 31) 6) (cont c1) :: code_points rest1
            else
              match rest1 with
              | String c2 rest2 =>
                  if N.ltb b0 240 then
                    N.lor (N.shiftl (N.land b0 15) 12)
                          (N.lor (N.shiftl (cont c1) 6) (cont c2))
                      :: code_points rest2
                  else
                    match rest2 with
                    | String c3 rest3 =>
                        N.lor (N.shiftl (N.land b0 7) 18)
                          (N.lor (N.shiftl (cont c1) 12)
                             (N.lor (N.shiftl (cont c2) 6) (cont c3)))
                          :: code_points rest3
                    | EmptyString => [b0]
                    end
              | EmptyString => [b0]
              end
        | EmptyString => [b0]
        end
  end.

Definition encode_basestring_ascii (s : string) : string :=
  quote ++ concat "" (map escape_code_point (code_points s)) ++ quote.

Definition int_repr (z : Z) : string := NilZero.string_of_int (Z.to_int z).

Fixpoint dumps (j : json) : string :=
  match j with
  | JStr s => encode_basestring_ascii s
  | JBool true => "true"
  | JBool false => "false"
  | JInt z => int_repr z
  | JDict items =>
      "{" ++
      (fix members (l : list (string * json)) (first : bool) : string :=
         match l with
         | [] => ""
         | (k, v) :: tl =>
             (if first then "" else ",")
               ++ encode_basestring_ascii k ++ ":" ++ dumps v
               ++ members tl false
         end) items true
      ++ "}"
  end.

End Json.

Import Json.

Local Open Scope string_scope.

(** Expected JSON texts are written with apostrophes in place of double
    quotes; [dq] puts the double quotes back. *)
Fixpoint dq (s : string) : string :=
  match s with
  | EmptyString => EmptyString
  | String c rest =>
      String (if Ascii.eqb c "'"%char then "034"%char else c) (dq rest)
  end.

(** ** Exceptions

    [BleakError] and [TimeoutError] are what the [except] clauses of the
    client catch; [OtherError] stands for any other exception a collaborator
    raises.  The three exceptions of [lmcloud.exceptions] are plain
    exceptions, none of them a [BleakError] nor a [TimeoutError]. *)

Inductive exn : Type :=
| BleakError (msg : string)
| TimeoutError (msg : string)
| OtherError (msg : string)
| AttributeError (msg : string)
| RecursionError
| ClientNotInitialized (msg : string)
| BluetoothDeviceNotFound (msg : string)
| BluetoothConnectionFailed (msg : string) (cause : exn).

(** [str(e)] *)
Definition str_exn (e : exn) : string :=
  match e with
  | BleakError m | TimeoutError m | OtherError m | AttributeError m
  | ClientNotInitialized m | BluetoothDeviceNotFound m
  | BluetoothConnectionFailed m _ => m
  | RecursionError => "maximum recursion depth exceeded"
  end.

(** [except (BleakError, TimeoutError)] *)
Definition is_bleak_or_timeout (e : exn) : bool :=
  match e with
  | BleakError _ | TimeoutError _ => true
  | _ => false
  end.

(** ** The collaborators: devices, scanners, the BLE transport *)

Record BLEDevice : Type := mkBLEDevice {
  device_address : string;
  device_name : option string }.

(** A scanner is what its [discover()] gives: the advertisers seen, in scan
    order, or an exception. *)
Record BaseBleakScanner : Type := mkScanner {
  discover : exn + list BLEDevice }.

(** [bleak.BleakClient]: [T] is the state of one client object.  A call
    returns the exception it raises, if any, and the state it leaves. *)
Class BleakClientModel (T : Type) : Type := {
  BleakClient : BLEDevice + string -> T;
  is_connected : T -> bool;
  connect : T -> option exn * T;
  write_gatt_char : T -> string -> bytes -> option exn * T }.

(** The calls made on the transport, oldest first. *)
Inductive call : Type :=
| Connect
| WriteGattChar (characteristic : string) (data : bytes).

(** [lmcloud.const]: the names the client imports from it. *)
Class Const : Type := {
  AUTH_CHARACTERISTIC : string;
  SETTINGS_CHARACTERISTIC : string;
  BT_MODEL_NAMES : list string;
  LaMarzoccoBoilerType : Type;
  boiler_value : LaMarzoccoBoilerType -> string }.

(** [message: bytes | str] *)
Inductive message : Type :=
| MBytes (b : bytes)
| MStr (s : string).

(** ** The client *)

Section Client.

Context {T : Type} {transport : BleakClientModel T} {const : Const}.

(** The default scanner, [BleakScanner()]. *)
Variable BleakScanner : BaseBleakScanner.

Record LaMarzoccoBluetoothClient : Type := mkClient {
  _username : string;
  _serial_number : string;
  _token : string;
  _address : option string;
  _client : option T }.

Definition set_address (a : option string) (c : LaMarzoccoBluetoothClient) :=
  mkClient (_username c) (_serial_number c) (_token c) a (_client c).

Definition set_client (t : option T) (c : LaMarzoccoBluetoothClient) :=
  mkClient (_username c) (_serial_number c) (_token c) (_address c) t.

(** What a method sees and changes: the object and the transport calls
    made so far. *)
Record world : Type := mkWorld {
  self : LaMarzoccoBluetoothClient;
  calls : list call }.

(** A method body: it returns a value or raises, and leaves a world
    either way. *)
Definition M (A : Type) : Type := world -> (exn + A) * world.

Definition ret {A} (a : A) : M A := fun st => (inr a, st).

Definition raise {A} (e : exn) : M A := fun st => (inl e, st).

Definition bind {A B} (m : M A) (k : A -> M B) : M B :=
  fun st =>
    match m st with
    | (inr a, st') => k a st'
    | (inl e, st') => (inl e, st')
    end.

(** [try: body  except (BleakError, TimeoutError) as e: handler e] *)
Definition try_except {A} (body : M A) (handler : exn -> M A) : M A :=
  fun st =>
    match body st with
    | (inl e, st') =>
        if is_bleak_or_timeout e then handler e st' else (inl e, st')
    | r => r
    end.

Definition get_self : M LaMarzoccoBluetoothClient :=
  fun st => (inr (self st), st).

Definition modify_self (f : LaMarzoccoBluetoothClient -> LaMarzoccoBluetoothClient)
  : M unit :=
  fun st => (inr tt, mkWorld (f (self st)) (calls st)).

(** A method call on [self._client]: the call is recorded, the client
    object takes its new state, the exception of the call is raised. *)
Definition on_client (c : call) (f : T -> option exn * T) : M unit :=
  fun st =>
    match _client (self st) with
    | None => (inl (AttributeError "'NoneType' object has no attribute"), st)
    | Some t =>
        let (r, t') := f t in
        let st' := mkWorld (set_client (Some t') (self st)) (calls st ++ [c]) in
        match r with
        | Some e => (inl e, st')
        | None => (inr tt, st')
        end
    end.

Fixpoint for_each {A} (l : list A) (body : A -> M unit) : M unit :=
  match l with
  | [] => ret tt
  | x :: tl => bind (body x) (fun _ => for_each tl body)
  end.

Notation "x <- m ;; k" := (bind m (fun x => k))
  (at level 61, m at next level, right associativity).
Notation "m ;; k" := (bind m (fun _ => k))
  (at level 61, right associativity).

(** *** Construction and the two properties *)

Definition __init__ (username serial_number token : string)
    (ble_device : option BLEDevice) : LaMarzoccoBluetoothClient :=
  let self0 := mkClient username serial_number token None None in
  match ble_device with
  | Some d =>
      set_client (Some (BleakClient (inl d)))
        (set_address (Some (device_address d)) self0)
  | None => self0
  end.

Definition address (c : LaMarzoccoBluetoothClient) : exn + string :=
  match _address c with
  | None => inl (ClientNotInitialized "Bluetooth client not initialized")
  | Some a => inr a
  end.

Definition connected (c : LaMarzoccoBluetoothClient) : bool :=
  match _client c with
  | None => false
  | Some t => is_connected t
  end.

(** *** Discovery *)

(** [name.startswith(tuple(prefixes))] *)
Definition startswith (name : string) (prefixes : list string) : bool :=
  existsb (fun p => String.prefix p name) prefixes.

(** The test of the loop body: [d.name] is neither [None] nor empty, and
    starts with one of [BT_MODEL_NAMES]. *)
Definition supported (d : BLEDevice) : bool :=
  match device_name d with
  | Some (String c n) => startswith (String c n) BT_MODEL_NAMES
  | _ => false
  end.

Definition _discover_device (scanner : BaseBleakScanner) : M unit :=
  match discover scanner with
  | inl e => raise e
  | inr devices =>
      for_each devices (fun d =>
        if supported d
        then modify_self (set_address (Some (device_address d)))
        else ret tt)
  end.

(** [create] builds its own object: it is run from the world of a fresh
    [__init__] and gives back the object or the exception, with the world
    it leaves. *)
Definition create (username serial_number token : string)
    (init_client : bool) (bleak_scanner : option BaseBleakScanner)
  : (exn + LaMarzoccoBluetoothClient) * world :=
  (match bleak_scanner with
   | None => _discover_device BleakScanner
   | Some scanner => _discover_device scanner
   end ;;
   c <- get_self ;;
   match _address c with
   | Some (String a0 a) =>
       (if init_client
        then modify_self (set_client (Some (BleakClient (inr (String a0 a)))))
        else ret tt) ;;
       get_self
   | _ => raise (BluetoothDeviceNotFound "Couldn't find a machine")
   end)
    (mkWorld (__init__ username serial_number token None) []).

(** *** Writing *)

Definition connection_failed (e : exn) : exn :=
  BluetoothConnectionFailed
    ("Failed to connect to machine with Bluetooth: " ++ str_exn e) e.

(** The body of [_authenticate], over the writer it calls. *)
Definition _authenticate_with (write : string -> message -> M unit) : M unit :=
  c <- get_self ;;
  let user := _username c ++ ":" ++ _serial_number c in
  let user_bytes := encode_utf8 user in
  let token := encode_utf8 (_token c) in
  let auth_string :=
    (Base64.b64encode user_bytes ++ encode_utf8 "@"
       ++ Base64.b64encode token)%list in
  write AUTH_CHARACTERISTIC (MBytes auth_string).

(** [_write_bluetooth_message] and [_authenticate] call each other;
    [depth] is the number of nested activations of
    [_write_bluetooth_message] the interpreter still allows, and
    [RecursionError] is raised when there is none left. *)
Fixpoint _write_bluetooth_message (depth : nat) (characteristic : string)
    (msg : message) : M unit :=
  match depth with
  | O => raise RecursionError
  | S depth' =>
      c <- get_self ;;
      match _client c with
      | None => raise (ClientNotInitialized "Bluetooth client not initialized")
      | Some t =>
          (if negb (is_connected t)
           then
             try_except
               (on_client Connect connect ;;
                _authenticate_with (_write_bluetooth_message depth'))
               (fun e => raise (connection_failed e))
           else ret tt) ;;
          let message1 :=
            match msg with
            | MBytes b => b
            | MStr s => encode_utf8 s
            end in
          let message2 :=
            if String.eqb characteristic SETTINGS_CHARACTERISTIC
            then (message1 ++ [x00])%list
            else message1 in
          on_client (WriteGattChar characteristic message2)
            (fun t' => write_gatt_char t' characteristic message2)
      end
  end.

Definition _authenticate (depth : nat) : M unit :=
  _authenticate_with (_write_bluetooth_message depth).

Definition _write_bluetooth_json_message (depth : nat) (data : json)
    (characteristic : string) : M unit :=
  _write_bluetooth_message depth characteristic (MStr (dumps data)).

Definition new_client_from_ble_device (depth : nat) (ble_device : BLEDevice)
  : M unit :=
  modify_self (set_client (Some (BleakClient (inl ble_device)))) ;;
  try_except
    (on_client Connect connect ;; _authenticate depth)
    (fun e => raise (connection_failed e)).

(** *** Commands *)

Definition set_power (depth : nat) (state : bool) : M unit :=
  let mode := if state then "BrewingMode" else "StandBy" in
  let data :=
    JDict [("name", JStr "MachineChangeMode");
           ("parameter", JDict [("mode", JStr mode)])] in
  _write_bluetooth_json_message depth data SETTINGS_CHARACTERISTIC.

Definition set_steam (depth : nat) (state : bool) : M unit :=
  let data :=
    JDict [("name", JStr "SettingBoilerEnable");
           ("parameter",
            JDict [("identifier", JStr "SteamBoiler");
                   ("state", JBool state)])] in
  _write_bluetooth_json_message depth data SETTINGS_CHARACTERISTIC.

Definition set_temp (depth : nat) (boiler : LaMarzoccoBoilerType)
    (temperature : Z) : M unit :=
  let data :=
    JDict [("name", JStr "SettingBoilerTarget");
           ("parameter",
            JDict [("identifier", JStr (boiler_value boiler));
                   ("value", JInt temperature)])] in
  _write_bluetooth_json_message depth data SETTINGS_CHARACTERISTIC.

(** *** The operations of a session, for statements over all of them *)

Inductive command : Type :=
| SetPower (state : bool)
| SetSteam (state : bool)
| SetTemp (boiler : LaMarzoccoBoilerType) (temperature : Z).

Definition run_command (depth : nat) (cmd : command) : M unit :=
  match cmd with
  | SetPower state => set_power depth state
  | SetSteam state => set_steam depth state
  | SetTemp boiler temperature => set_temp depth boiler temperature
  end.

Inductive operation : Type :=
| Command (cmd : command)
| QueryConnected
| QueryAddress
| NewClientFromBleDevice (ble_device : BLEDevice).

(** One public operation; the value or exception it gives is dropped, the
    world it leaves is kept. *)
Definition run_operation (depth : nat) (op : operation) (w : world) : world :=
  match op with
  | Command cmd => snd (run_command depth cmd w)
  | QueryConnected => let _ := connected (self w) in w
  | QueryAddress => let _ := address (self w) in w
  | NewClientFromBleDevice d => snd (new_client_from_ble_device depth d w)
  end.

Definition run_operations (depth : nat) (ops : list operation) (w : world)
  : world :=
  fold_left (fun w' op => run_operation depth op w') ops w.

(** *** Names for the statements *)

(** The [data] dictionary a command builds. *)
Definition command_data (cmd : command) : json :=
  match cmd with
  | SetPower state =>
      JDict [("name", JStr "MachineChangeMode");
             ("parameter",
              JDict [("mode", JStr (if state then "BrewingMode" else "StandBy"))])]
  | SetSteam state =>
      JDict [("name", JStr "SettingBoilerEnable");
             ("parameter",
              JDict [("identifier", JStr "SteamBoiler");
                     ("state", JBool state)])]
  | SetTemp boiler temperature =>
      JDict [("name", JStr "SettingBoilerTarget");
             ("parameter",
              JDict [("identifier", JStr (boiler_value boiler));
                     ("value", JInt temperature)])]
  end.

(** The bytes [_write_bluetooth_message] hands to [write_gatt_char]. *)
Definition wire_bytes (characteristic : string) (msg : message) : bytes :=
  let b := match msg with MBytes b => b | MStr s => encode_utf8 s end in
  if String.eqb characteristic SETTINGS_CHARACTERISTIC
  then (b ++ [x00])%list else b.

(** The [auth_string] of [_authenticate]. *)
Definition auth_string (c : LaMarzoccoBluetoothClient) : bytes :=
  (Base64.b64encode (encode_utf8 (_username c ++ ":" ++ _serial_number c))
     ++ encode_utf8 "@" ++ Base64.b64encode (encode_utf8 (_token c)))%list.

Definition auth_call (c : LaMarzoccoBluetoothClient) : call :=
  WriteGattChar AUTH_CHARACTERISTIC
    (wire_bytes AUTH_CHARACTERISTIC (MBytes (auth_string c))).

Definition write_call (characteristic : string) (msg : message) : call :=
  WriteGattChar characteristic (wire_bytes characteristic msg).

(** The credentials and the address of two objects agree. *)
Definition same_identity (c c' : LaMarzoccoBluetoothClient) : Prop :=
  _username c' = _username c /\ _serial_number c' = _serial_number c
  /\ _token c' = _token c /\ _address c' = _address c.

(** [keeps c0 P m]: run on an object that has the credentials and the
    address of [c0], [m] leaves such an object, and only adds transport
    calls that satisfy [P]. *)
Definition keeps (c0 : LaMarzoccoBluetoothClient) (P : call -> Prop) {A}
    (m : M A) : Prop :=
  forall w, same_identity c0 (self w) ->
    same_identity c0 (self (snd (m w)))
    /\ exists new, calls (snd (m w)) = (calls w ++ new)%list /\ Forall P new.

(** The calls [_write_bluetooth_message] may make: the connection, the
    authentication write, the write it was asked for. *)
Definition write_message_call (c0 : LaMarzoccoBluetoothClient)
    (characteristic : string) (msg : message) (x : call) : Prop :=
  x = Connect \/ x = auth_call c0 \/ x = write_call characteristic msg.

End Client.

(** ** A scripted transport and an example configuration

    Concrete collaborators on which the statements below are run. *)

Module Mock.

(** The state of a scripted client: whether the link is up, and what the
    next calls do, each entry giving the exception raised, if any, and the
    link state the call leaves.  Once the script is used up, [connect]
    succeeds and brings the link up, and a write succeeds and leaves the
    link as it is. *)
Record t : Type := mk {
  link : bool;
  script : list (option exn * bool) }.

Definition step (otherwise : bool) (c : t) : option exn * t :=
  match script c with
  | [] => (None, mk otherwise [])
  | (r, l) :: rest => (r, mk l rest)
  end.

Definition transport : BleakClientModel t := {|
  BleakClient := fun _ => mk false [];
  is_connected := link;
  connect := step true;
  write_gatt_char := fun c _ _ => step (link c) c |}.

End Mock.

Module Sample.

Inductive boiler : Type := COFFEE | STEAM.

Definition const : Const := {|
  AUTH_CHARACTERISTIC := "090b7847-e12b-09a8-b04b-8e0922a9abab";
  SETTINGS_CHARACTERISTIC := "050b7847-e12b-09a8-b04b-8e0922a9abab";
  BT_MODEL_NAMES := ["MICRA"; "MINI"; "GS3"];
  LaMarzoccoBoilerType := boiler;
  boiler_value := fun b =>
    match b with
    | COFFEE => "CoffeeBoiler1"
    | STEAM => "SteamBoiler"
    end |}.

(** A session of user [u], machine [s], token [t], bound to a device at
    [address], whose transport is in state [c]; no call made yet. *)
Definition session (c : option Mock.t) (address : option string)
  : world (T := Mock.t) :=
  mkWorld (mkClient "u" "s" "t" address c) [].

(** A transport whose link is down, and one whose link is up. *)
Definition down : Mock.t := Mock.mk false [].
Definition up : Mock.t := Mock.mk true [].

(** A transport whose connect succeeds and brings the link up, and whose
    next write raises a [BleakError] and leaves the link up. *)
Definition auth_refused : Mock.t :=
  Mock.mk false [(None, true); (Some (BleakError "write failed"), true)].

(** A transport whose connect times out and leaves the link down. *)
Definition unreachable : Mock.t :=
  Mock.mk false [(Some (TimeoutError "timed out"), false)].

(** A scanner that sees nothing. *)
Definition idle_scanner : BaseBleakScanner := mkScanner (inr []).

Definition micra_A : BLEDevice := mkBLEDevice "AA:AA:AA:AA:AA:AA" (Some "MICRA_A").
Definition micra_B : BLEDevice := mkBLEDevice "BB:BB:BB:BB:BB:BB" (Some "MICRA_B").
Definition headset : BLEDevice := mkBLEDevice "CC:CC:CC:CC:CC:CC" (Some "Headset").
Definition unnamed : BLEDevice := mkBLEDevice "DD:DD:DD:DD:DD:DD" None.

End Sample.

(** ** Further names for the statements *)

(** A character in the range [' '..'~']. *)
Definition printable_char (c : ascii) : bool :=
  (32 <=? N_of_ascii c)%N && (N_of_ascii c <=? 126)%N.

Fixpoint printable (s : string) : bool :=
  match s with
  | EmptyString => true
  | String c rest => printable_char c && printable rest
  end.

(** A character that [json.dumps] copies as it is: in [' '..'~'], and
    neither the double quote nor the backslash. *)
Definition plain_char (c : ascii) : bool :=
  printable_char c
  && negb (N_of_ascii c =? 34)%N && negb (N_of_ascii c =? 92)%N.

Fixpoint plain (s : string) : bool :=
  match s with
  | EmptyString => true
  | String c rest => plain_char c && plain rest
  end.

(** A transport whose [connect] returns without raising while its link
    never comes up. *)
Module Stuck.

Definition transport : BleakClientModel unit := {|
  BleakClient := fun _ => tt;
  is_connected := fun _ => false;
  connect := fun _ => (None, tt);
  write_gatt_char := fun _ _ _ => (None, tt) |}.

End Stuck.

(** A transport on the scripted states whose new clients fail to connect:
    the connect of a client just built times out. *)
Module Refusing.

Definition transport : BleakClientModel Mock.t := {|
  BleakClient := fun _ =>
    Mock.mk false [(Some (TimeoutError "timed out"), false)];
  is_connected := Mock.link;
  connect := Mock.step true;
  write_gatt_char := fun c _ _ => Mock.step (Mock.link c) c |}.

End Refusing.

Module MoreSamples.

(** A connected transport whose next write raises a [BleakError]. *)
Definition write_refused : Mock.t :=
  Mock.mk true [(Some (BleakError "gatt write failed"), true)].

(** A transport whose connect raises an exception that is neither a
    [BleakError] nor a [TimeoutError]. *)
Definition cancelled : Mock.t :=
  Mock.mk false [(Some (OtherError "cancelled"), false)].

(** A transport whose link drops right after the first command write. *)
Definition dropping : Mock.t :=
  Mock.mk false [(None, true); (None, true); (None, false)].

(** A scanner whose [discover()] raises. *)
Definition failing_scanner : BaseBleakScanner :=
  mkScanner (inl (BleakError "adapter is off")).

(** A session on the transport that never comes up. *)
Definition stuck_session : world (T := unit) :=
  mkWorld (mkClient "u" "s" "t" (Some "AA:AA:AA:AA:AA:AA") (Some tt)) [].

End MoreSamples.

(** ** Facts about the encoders *)

Lemma sextet_not_nul (n : N) : Base64.sextet n <> x00.
Proof.
  unfold Base64.sextet.
  destruct (nth_in_or_default (N.to_nat (N.land n 63)) Base64.alphabet
              Base64.pad) as [Hin | Hpad].
  - assert (Hall : forallb (fun b => negb (Byte.eqb b x00)) Base64.alphabet
                   = true) by reflexivity.
    rewrite forallb_forall in Hall. specialize (Hall _ Hin).
    intros Heq. rewrite Heq in Hall. discriminate Hall.
  - rewrite Hpad. discriminate.
Qed.

Lemma b64encode_not_nul_upto (n : nat) :
  forall s : bytes,
    List.length s <= n -> Forall (fun b => b <> x00) (Base64.b64encode s).
Proof.
  assert (Hpad : Base64.pad <> x00) by discriminate.
  induction n as [|n IH]; intros s Hlen.
  - destruct s; [constructor | cbn in Hlen; lia].
  - destruct s as [|a [|b [|c rest]]]; cbn [Base64.b64encode].
    + constructor.
    + repeat constructor; auto using sextet_not_nul.
    + repeat constructor; auto using sextet_not_nul.
    + repeat (constructor; [apply sextet_not_nul|]).
      apply IH. cbn in Hlen. lia.
Qed.

Lemma b64encode_not_nul (s : bytes) :
  Forall (fun b => b <> x00) (Base64.b64encode s).
Proof. exact (@b64encode_not_nul_upto (List.length s) s (le_n _)). Qed.

Lemma no_trailing_nul (l : bytes) :
  Forall (fun b => b <> x00) l -> forall pre, l <> (pre ++ [x00])%list.
Proof.
  intros Hall pre Heq. rewrite Heq in Hall.
  apply Forall_app in Hall. destruct Hall as [_ Hlast].
  inversion Hlast as [|? ? Hx _]. now apply Hx.
Qed.

Lemma find_snoc {A} (f : A -> bool) (l : list A) (x : A) :
  find f (l ++ [x])
  = match find f l with
    | Some y => Some y
    | None => if f x then Some x else None
    end.
Proof.
  induction l as [|y l IH]; cbn; [reflexivity|].
  destruct (f y); [reflexivity | exact IH].
Qed.

(** *** The text of [json.dumps] *)

Lemma string_app_assoc (a b c : string) : (a ++ b) ++ c = a ++ (b ++ c).
Proof. induction a as [|x a IH]; cbn; [reflexivity | now rewrite IH]. Qed.

Lemma printable_app (a b : string) :
  printable (a ++ b) = printable a && printable b.
Proof.
  induction a as [|c a IH]; cbn; [reflexivity|].
  now rewrite IH, andb_assoc.
Qed.

Lemma printable_hex_digit (n : N) : printable_char (hex_digit n) = true.
Proof.
  unfold hex_digit.
  destruct (nth_in_or_default (N.to_nat (N.land n 15))
              (list_ascii_of_string "0123456789abcdef") "0"%char)
    as [Hin | Hd].
  - assert (Hall : forallb printable_char
                     (list_ascii_of_string "0123456789abcdef") = true)
      by reflexivity.
    rewrite forallb_forall in Hall. exact (Hall _ Hin).
  - now rewrite Hd.
Qed.

Lemma printable_u_escape (n : N) : printable (u_escape n) = true.
Proof.
  unfold u_escape. cbn [printable]. now rewrite !printable_hex_digit.
Qed.

Lemma printable_escape_code_point (n : N) :
  printable (escape_code_point n) = true.
Proof.
  unfold escape_code_point.
  repeat match goal with
         | |- context [if (n =? ?k)%N then _ else _] =>
             destruct (n =? k)%N; [reflexivity|]
         end.
  destruct ((32 <=? n)%N && (n <=? 126)%N) eqn:Hr.
  - apply andb_true_iff in Hr. destruct Hr as [Hlo Hhi].
    cbn [printable]. unfold printable_char.
    rewrite N_ascii_embedding.
    + now rewrite Hlo, Hhi.
    + apply N.leb_le in Hhi. lia.
  - destruct (n <? 65536)%N; [apply printable_u_escape|].
    cbv zeta. now rewrite printable_app, !printable_u_escape.
Qed.

Lemma printable_concat (l : list string) :
  Forall (fun s => printable s = true) l -> printable (concat "" l) = true.
Proof.
  induction 1 as [|x l Hx Hl IH]; [reflexivity|].
  cbn [concat]. destruct l as [|y l]; [exact Hx|].
  now rewrite !printable_app, Hx, IH.
Qed.

Lemma printable_encode_basestring_ascii (s : string) :
  printable (encode_basestring_ascii s) = true.
Proof.
  unfold encode_basestring_ascii.
  rewrite !printable_app, printable_concat; [reflexivity|].
  apply Forall_forall. intros x Hx. apply in_map_iff in Hx.
  destruct Hx as (n & <- & _). apply printable_escape_code_point.
Qed.

Lemma printable_string_of_uint (d : Decimal.uint) :
  printable (NilEmpty.string_of_uint d) = true.
Proof. induction d; cbn; auto. Qed.

Lemma printable_int_repr (z : Z) : printable (int_repr z) = true.
Proof.
  unfold int_repr, NilZero.string_of_int, NilZero.string_of_uint.
  destruct (Z.to_int z) as [d | d]; destruct d;
    try reflexivity;
    try (cbn [printable]; rewrite ?andb_true_l);
    try exact (printable_string_of_uint (_ _));
    cbn; apply printable_string_of_uint.
Qed.

Lemma printable_dumps : forall j : json, printable (dumps j) = true.
Proof.
  fix IH 1. intros [s | [|] | z | items]; cbn [dumps].
  - apply printable_encode_basestring_ascii.
  - reflexivity.
  - reflexivity.
  - apply printable_int_repr.
  - rewrite !printable_app.
    match goal with
    | |- context [?members items true] =>
        assert (Hm : forall first, printable (members items first) = true)
    end.
    { induction items as [|[k v] items IHitems]; intros first;
        [reflexivity|].
      rewrite !printable_app, printable_encode_basestring_ascii, IH, IHitems.
      now destruct first. }
    now rewrite Hm.
Qed.

Lemma printable_bytes (s : string) :
  printable s = true ->
  Forall (fun b => (32 <= Byte.to_N b <= 126)%N) (encode_utf8 s).
Proof.
  unfold encode_utf8, list_byte_of_string.
  induction s as [|c s IH]; cbn; intros H; [constructor|].
  apply andb_true_iff in H. destruct H as [Hc Hs].
  constructor; [|now apply IH].
  rewrite (@Byte.to_of_N _ _ (eq_sym (byte_of_ascii_via_N c))).
  unfold printable_char in Hc. apply andb_true_iff in Hc.
  destruct Hc as [Hlo Hhi]. apply N.leb_le in Hlo, Hhi. lia.
Qed.

Lemma escape_plain_char (c : ascii) :
  plain_char c = true -> escape_code_point (N_of_ascii c) = String c "".
Proof.
  destruct c as [[|] [|] [|] [|] [|] [|] [|] [|]];
    intros H; try discriminate H; reflexivity.
Qed.

Lemma plain_char_ascii (c : ascii) :
  plain_char c = true -> (N_of_ascii c <? 192)%N = true.
Proof.
  destruct c as [[|] [|] [|] [|] [|] [|] [|] [|]];
    intros H; try discriminate H; reflexivity.
Qed.

Lemma escape_plain (s : string) :
  plain s = true ->
  concat "" (map escape_code_point (code_points s)) = s.
Proof.
  induction s as [|c s IH]; [reflexivity|].
  cbn [plain]. intros H. apply andb_true_iff in H. destruct H as [Hc Hs].
  cbn [code_points]. cbv zeta. rewrite (plain_char_ascii _ Hc).
  cbn [map concat]. rewrite (escape_plain_char _ Hc).
  specialize (IH Hs).
  destruct (map escape_code_point (code_points s)) as [|x l] eqn:Hm.
  - cbn in IH. now rewrite <- IH.
  - cbn [append]. now rewrite IH.
Qed.

Lemma encode_basestring_ascii_plain (s : string) :
  plain s = true -> encode_basestring_ascii s = quote ++ s ++ quote.
Proof.
  intros H. unfold encode_basestring_ascii. now rewrite (escape_plain _ H).
Qed.

(** *** The alphabet of base64 *)

Lemma sextet_in_alphabet (n : N) :
  In (Base64.sextet n) (Base64.pad :: Base64.alphabet).
Proof.
  unfold Base64.sextet.
  destruct (nth_in_or_default (N.to_nat (N.land n 63)) Base64.alphabet
              Base64.pad) as [Hin | Hpad].
  - now right.
  - left. now rewrite Hpad.
Qed.

Lemma b64encode_alphabet_upto (n : nat) :
  forall s : bytes,
    List.length s <= n ->
    Forall (fun b => In b (Base64.pad :: Base64.alphabet))
      (Base64.b64encode s).
Proof.
  assert (Hpad : In Base64.pad (Base64.pad :: Base64.alphabet)) by now left.
  induction n as [|n IH]; intros s Hlen.
  - destruct s; [constructor | cbn in Hlen; lia].
  - destruct s as [|a [|b [|c rest]]]; cbn [Base64.b64encode].
    + constructor.
    + repeat (apply Forall_cons;
              [first [apply sextet_in_alphabet | exact Hpad]|]).
      apply Forall_nil.
    + repeat (apply Forall_cons;
              [first [apply sextet_in_alphabet | exact Hpad]|]).
      apply Forall_nil.
    + repeat (apply Forall_cons; [apply sextet_in_alphabet|]).
      apply IH. cbn in Hlen. lia.
Qed.

Lemma b64encode_alphabet (s : bytes) :
  Forall (fun b => In b (Base64.pad :: Base64.alphabet)) (Base64.b64encode s).
Proof. exact (@b64encode_alphabet_upto (List.length s) s (le_n _)). Qed.

Lemma b64encode_no_at (s : bytes) :
  Forall (fun b => b <> "@"%byte) (Base64.b64encode s).
Proof.
  eapply Forall_impl; [|apply b64encode_alphabet].
  intros b Hin Heq. subst b.
  assert (Hall : forallb (fun b => negb (Byte.eqb b "@"%byte))
                   (Base64.pad :: Base64.alphabet) = true) by reflexivity.
  rewrite forallb_forall in Hall. specialize (Hall _ Hin). discriminate Hall.
Qed.

Lemma find_skip {A} (f : A -> bool) (l1 l2 : list A) :
  (forall x, In x l1 -> f x = false) -> find f (l1 ++ l2) = find f l2.
Proof.
  induction l1 as [|x l1 IH]; intros H; [reflexivity|].
  cbn. rewrite (H x (or_introl eq_refl)). apply IH.
  intros y Hy. apply H. now right.
Qed.

(** ** Facts about the client *)

Section Facts.

Context {T : Type} {transport : BleakClientModel T} {const : Const}.

Implicit Types (w : world (T := T)) (c : LaMarzoccoBluetoothClient (T := T)).
Implicit Types (t : T) (e : exn) (depth : nat).

(** The default scanner, [BleakScanner()]. *)
Variable BleakScanner : BaseBleakScanner.

Lemma run_command_json (depth : nat) (cmd : command) :
  run_command depth cmd
  = _write_bluetooth_message depth SETTINGS_CHARACTERISTIC
      (MStr (dumps (command_data cmd))).
Proof. destruct cmd; reflexivity. Qed.

Lemma same_identity_refl c : same_identity c c.
Proof. repeat split. Qed.

Lemma same_identity_trans c1 c2 c3 :
  same_identity c1 c2 -> same_identity c2 c3 -> same_identity c1 c3.
Proof.
  unfold same_identity; intros (?&?&?&?) (?&?&?&?); repeat split; congruence.
Qed.

Lemma same_identity_set_client c (o : option T) :
  same_identity c (set_client o c).
Proof. repeat split. Qed.

Lemma auth_string_identity c c' :
  same_identity c c' -> auth_string c' = auth_string c.
Proof.
  unfold auth_string; intros (Hu & Hs & Ht & _); now rewrite Hu, Hs, Ht.
Qed.

(** *** One transport call *)

Lemma on_client_some call0 (f : T -> option exn * T) w t :
  _client (self w) = Some t ->
  on_client call0 f w
  = (match fst (f t) with Some e => inl e | None => inr tt end,
     mkWorld (set_client (Some (snd (f t))) (self w)) (calls w ++ [call0])).
Proof.
  intros Hc. unfold on_client. rewrite Hc.
  destruct (f t) as [[e|] t']; reflexivity.
Qed.

(** *** The four ways through the connection check *)

Lemma write_message_step depth characteristic msg :
  _write_bluetooth_message (S depth) characteristic msg
  = bind get_self (fun c =>
      match _client c with
      | None => raise (ClientNotInitialized "Bluetooth client not initialized")
      | Some t =>
          bind
            (if negb (is_connected t)
             then try_except
                    (bind (on_client Connect connect)
                       (fun _ => _authenticate depth))
                    (fun e => raise (connection_failed e))
             else ret tt)
            (fun _ =>
               on_client (write_call characteristic msg)
                 (fun t' => write_gatt_char t' characteristic
                              (wire_bytes characteristic msg)))
      end).
Proof. reflexivity. Qed.

Lemma write_message_connected depth characteristic msg w t :
  _client (self w) = Some t ->
  is_connected t = true ->
  _write_bluetooth_message (S depth) characteristic msg w
  = on_client (write_call characteristic msg)
      (fun t' => write_gatt_char t' characteristic
                   (wire_bytes characteristic msg)) w.
Proof.
  intros Hc Hl. rewrite write_message_step.
  unfold bind at 1. unfold get_self at 1. rewrite Hc, Hl. reflexivity.
Qed.

Lemma authenticate_connected depth w t :
  _client (self w) = Some t ->
  is_connected t = true ->
  _authenticate (S depth) w
  = on_client (auth_call (self w))
      (fun t' => write_gatt_char t' AUTH_CHARACTERISTIC
                   (wire_bytes AUTH_CHARACTERISTIC
                      (MBytes (auth_string (self w))))) w.
Proof.
  intros Hc Hl. unfold _authenticate, _authenticate_with.
  unfold bind at 1. unfold get_self at 1.
  now rewrite (write_message_connected _ _ _ _ Hc Hl).
Qed.

Lemma write_message_connect_raises depth characteristic msg w t e t1 :
  _client (self w) = Some t ->
  is_connected t = false ->
  connect t = (Some e, t1) ->
  _write_bluetooth_message (S depth) characteristic msg w
  = (inl (if is_bleak_or_timeout e then connection_failed e else e),
     mkWorld (set_client (Some t1) (self w)) (calls w ++ [Connect])).
Proof.
  intros Hc Hl Hcon. rewrite write_message_step.
  unfold bind at 1. unfold get_self at 1. rewrite Hc, Hl. cbn [negb].
  unfold bind at 1. unfold try_except. unfold bind at 1.
  rewrite (on_client_some _ _ _ Hc), Hcon. cbn [fst snd].
  destruct (is_bleak_or_timeout e); reflexivity.
Qed.

Lemma write_message_auth_raises depth characteristic msg w t t1 e t2 :
  _client (self w) = Some t ->
  is_connected t = false ->
  connect t = (None, t1) ->
  is_connected t1 = true ->
  write_gatt_char t1 AUTH_CHARACTERISTIC
    (wire_bytes AUTH_CHARACTERISTIC (MBytes (auth_string (self w))))
  = (Some e, t2) ->
  _write_bluetooth_message (S (S depth)) characteristic msg w
  = (inl (if is_bleak_or_timeout e then connection_failed e else e),
     mkWorld (set_client (Some t2) (self w))
       (calls w ++ [Connect; auth_call (self w)])).
Proof.
  intros Hc Hl Hcon Hl1 Hw. rewrite write_message_step.
  unfold bind at 1. unfold get_self at 1. rewrite Hc, Hl. cbn [negb].
  unfold bind at 1. unfold try_except. unfold bind at 1.
  rewrite (on_client_some _ _ _ Hc), Hcon. cbn [fst snd].
  set (w1 := mkWorld (set_client (Some t1) (self w)) (calls w ++ [Connect])).
  assert (Hc1 : _client (self w1) = Some t1) by reflexivity.
  rewrite (authenticate_connected _ _ Hc1 Hl1), (on_client_some _ _ _ Hc1).
  change (auth_string (self w1)) with (auth_string (self w)).
  rewrite Hw. cbn [fst snd]. subst w1. cbn [calls self].
  rewrite <- app_assoc. cbn [app].
  destruct (is_bleak_or_timeout e); reflexivity.
Qed.

Lemma write_message_handshake depth characteristic msg w t t1 t2 :
  _client (self w) = Some t ->
  is_connected t = false ->
  connect t = (None, t1) ->
  is_connected t1 = true ->
  write_gatt_char t1 AUTH_CHARACTERISTIC
    (wire_bytes AUTH_CHARACTERISTIC (MBytes (auth_string (self w))))
  = (None, t2) ->
  _write_bluetooth_message (S (S depth)) characteristic msg w
  = (match fst (write_gatt_char t2 characteristic
                  (wire_bytes characteristic msg)) with
     | Some e => inl e
     | None => inr tt
     end,
     mkWorld
       (set_client
          (Some (snd (write_gatt_char t2 characteristic
                        (wire_bytes characteristic msg)))) (self w))
       (calls w ++ [Connect; auth_call (self w);
                    write_call characteristic msg])).
Proof.
  intros Hc Hl Hcon Hl1 Hw. rewrite write_message_step.
  unfold bind at 1. unfold get_self at 1. rewrite Hc, Hl. cbn [negb].
  unfold bind at 1. unfold try_except. unfold bind at 1.
  rewrite (on_client_some _ _ _ Hc), Hcon. cbn [fst snd].
  set (w1 := mkWorld (set_client (Some t1) (self w)) (calls w ++ [Connect])).
  assert (Hc1 : _client (self w1) = Some t1) by reflexivity.
  rewrite (authenticate_connected _ _ Hc1 Hl1), (on_client_some _ _ _ Hc1).
  change (auth_string (self w1)) with (auth_string (self w)).
  rewrite Hw. cbn [fst snd].
  set (w2 := mkWorld _ _).
  assert (Hc2 : _client (self w2) = Some t2) by reflexivity.
  rewrite (on_client_some (write_call characteristic msg) _ _ Hc2).
  subst w2 w1. cbn [calls self]. unfold set_client. cbn.
  rewrite <- !app_assoc. reflexivity.
Qed.

(** *** What every method keeps *)

Lemma keeps_ret c0 P {A} (a : A) : keeps c0 P (ret a).
Proof.
  intros w Hid; split; [exact Hid|].
  exists []; split; [symmetry; apply app_nil_r | constructor].
Qed.

Lemma keeps_raise c0 P {A} e : keeps c0 P (raise (A := A) e).
Proof.
  intros w Hid; split; [exact Hid|].
  exists []; split; [symmetry; apply app_nil_r | constructor].
Qed.

Lemma keeps_bind c0 P {A B} (m : M A) (k : A -> M B) :
  keeps c0 P m -> (forall a, keeps c0 P (k a)) -> keeps c0 P (bind m k).
Proof.
  intros Hm Hk w Hid. unfold bind.
  destruct (Hm w Hid) as (Hid1 & new1 & Hc1 & HP1).
  destruct (m w) as [[e|a] w1]; cbn [snd] in *.
  - split; [exact Hid1 | now exists new1].
  - destruct (Hk a w1 Hid1) as (Hid2 & new2 & Hc2 & HP2).
    split; [exact Hid2|]. exists (new1 ++ new2)%list. split.
    + now rewrite Hc2, Hc1, app_assoc.
    + apply Forall_app; now split.
Qed.

Lemma keeps_get_self_bind c0 P {B} (k : LaMarzoccoBluetoothClient -> M B) :
  (forall c, same_identity c0 c -> keeps c0 P (k c)) ->
  keeps c0 P (bind get_self k).
Proof. intros Hk w Hid. exact (Hk (self w) Hid w Hid). Qed.

Lemma keeps_try_except c0 P {A} (body : M A) (handler : exn -> M A) :
  keeps c0 P body -> (forall e, keeps c0 P (handler e)) ->
  keeps c0 P (try_except body handler).
Proof.
  intros Hm Hk w Hid. unfold try_except.
  destruct (Hm w Hid) as (Hid1 & new1 & Hc1 & HP1).
  destruct (body w) as [[e|a] w1]; cbn [snd] in *.
  - destruct (is_bleak_or_timeout e).
    + destruct (Hk e w1 Hid1) as (Hid2 & new2 & Hc2 & HP2).
      split; [exact Hid2|]. exists (new1 ++ new2)%list. split.
      * now rewrite Hc2, Hc1, app_assoc.
      * apply Forall_app; now split.
    + split; [exact Hid1 | now exists new1].
  - split; [exact Hid1 | now exists new1].
Qed.

Lemma keeps_on_client c0 (P : call -> Prop) call0 (f : T -> option exn * T) :
  P call0 -> keeps c0 P (on_client call0 f).
Proof.
  intros HP w Hid. unfold on_client.
  destruct (_client (self w)) as [t|].
  - destruct (f t) as [[e|] t']; cbn [snd self calls];
      (split;
       [ exact (same_identity_trans Hid (same_identity_set_client _ _))
       | exists [call0]; split; [reflexivity | now repeat constructor] ]).
  - split; [exact Hid|].
    exists []; split; [symmetry; apply app_nil_r | constructor].
Qed.

Lemma keeps_set_client c0 P (o : option T) :
  keeps c0 P (modify_self (set_client o)).
Proof.
  intros w Hid. cbn. split.
  - exact (same_identity_trans Hid (same_identity_set_client _ _)).
  - exists []; split; [symmetry; apply app_nil_r | constructor].
Qed.

Lemma keeps_weaken c0 (P Q : call -> Prop) {A} (m : M A) :
  (forall x, P x -> Q x) -> keeps c0 P m -> keeps c0 Q m.
Proof.
  intros HPQ Hm w Hid. destruct (Hm w Hid) as (Hid1 & new & Hc & HP).
  split; [exact Hid1|]. exists new; split; [exact Hc|].
  eapply Forall_impl; [exact HPQ | exact HP].
Qed.

Create HintDb keeps.
#[local] Hint Resolve keeps_ret keeps_raise keeps_on_client keeps_set_client
  : keeps.

Lemma authenticate_with_keeps c0 (write : string -> message -> M unit) :
  (forall msg,
     keeps c0 (write_message_call c0 AUTH_CHARACTERISTIC msg)
       (write AUTH_CHARACTERISTIC msg)) ->
  keeps c0 (fun x => x = Connect \/ x = auth_call c0)
    (_authenticate_with write).
Proof.
  intros Hw. unfold _authenticate_with. apply keeps_get_self_bind.
  intros c Hid. cbv zeta. fold (auth_string c).
  eapply keeps_weaken; [|apply Hw].
  intros x [Hx | [Hx | Hx]]; [now left | now right |].
  right. rewrite Hx. unfold write_call, auth_call.
  now rewrite (auth_string_identity Hid).
Qed.

Lemma write_message_keeps c0 depth :
  forall characteristic msg,
    keeps c0 (write_message_call c0 characteristic msg)
      (_write_bluetooth_message depth characteristic msg).
Proof.
  induction depth as [|depth IH]; intros characteristic msg.
  - apply keeps_raise.
  - rewrite write_message_step. apply keeps_get_self_bind. intros c Hid.
    destruct (_client c) as [t|]; [|apply keeps_raise].
    apply keeps_bind.
    + destruct (negb (is_connected t)); [|apply keeps_ret].
      apply keeps_try_except; [|intros; apply keeps_raise].
      apply keeps_bind; [apply keeps_on_client; now left|].
      intros _. eapply keeps_weaken;
        [|apply authenticate_with_keeps; intros; apply IH].
      intros x [Hx | Hx]; [now left | now right; left].
    + intros _. apply keeps_on_client. now right; right.
Qed.

Lemma authenticate_keeps c0 depth :
  keeps c0 (fun x => x = Connect \/ x = auth_call c0) (_authenticate depth).
Proof.
  apply authenticate_with_keeps. intros. apply write_message_keeps.
Qed.

Lemma run_command_keeps c0 depth cmd :
  keeps c0
    (write_message_call c0 SETTINGS_CHARACTERISTIC
       (MStr (dumps (command_data cmd))))
    (run_command depth cmd).
Proof. rewrite run_command_json. apply write_message_keeps. Qed.

Lemma new_client_keeps c0 depth ble_device :
  keeps c0 (fun x => x = Connect \/ x = auth_call c0)
    (new_client_from_ble_device depth ble_device).
Proof.
  unfold new_client_from_ble_device.
  apply keeps_bind; [auto with keeps|]. intros _.
  apply keeps_try_except; [|auto with keeps].
  apply keeps_bind; [apply keeps_on_client; now left|].
  intros _. apply authenticate_keeps.
Qed.

(** *** Discovery *)

(** The loop of [_discover_device] over the advertisers seen. *)
Lemma discover_loop devices w :
  for_each devices (fun d =>
    if supported d
    then modify_self (set_address (Some (device_address d)))
    else ret tt) w
  = (inr tt,
     mkWorld
       (set_address
          (match find supported (rev devices) with
           | Some d => Some (device_address d)
           | None => _address (self w)
           end) (self w))
       (calls w)).
Proof.
  revert w. induction devices as [|d devices IH]; intros w.
  - destruct w as [[u s k a cl] l]. reflexivity.
  - cbn [for_each rev]. unfold bind. rewrite find_snoc.
    destruct (supported d) eqn:Hd.
    + cbn [modify_self]. rewrite IH. cbn [self calls].
      destruct (find supported (rev devices)); reflexivity.
    + cbn [ret]. rewrite IH.
      destruct (find supported (rev devices)); reflexivity.
Qed.

Lemma discover_device_last_match scanner devices w :
  discover scanner = inr devices ->
  _discover_device scanner w
  = (inr tt,
     mkWorld
       (set_address
          (match find supported (rev devices) with
           | Some d => Some (device_address d)
           | None => _address (self w)
           end) (self w))
       (calls w)).
Proof.
  intros Hd. unfold _discover_device. rewrite Hd. apply discover_loop.
Qed.

Lemma not_supported (d : BLEDevice) :
  (forall name, device_name d = Some name ->
                startswith name BT_MODEL_NAMES = false) ->
  supported d = false.
Proof.
  intros H. unfold supported.
  destruct (device_name d) as [[|ch name]|]; auto.
Qed.

Lemma find_none_of {A} (f : A -> bool) (l : list A) :
  (forall x, In x l -> f x = false) -> find f l = None.
Proof.
  induction l as [|x l IH]; intros H; [reflexivity|].
  cbn. rewrite (H x (or_introl eq_refl)). apply IH.
  intros y Hy. apply H. now right.
Qed.

(** *** The bytes on the wire *)

Lemma wire_bytes_settings (s : string) :
  wire_bytes SETTINGS_CHARACTERISTIC (MStr s) = (encode_utf8 s ++ [x00])%list.
Proof. unfold wire_bytes. now rewrite String.eqb_refl. Qed.

Lemma wire_bytes_auth (b : bytes) :
  AUTH_CHARACTERISTIC <> SETTINGS_CHARACTERISTIC ->
  wire_bytes AUTH_CHARACTERISTIC (MBytes b) = b.
Proof.
  intros Hne. unfold wire_bytes.
  destruct (String.eqb_spec AUTH_CHARACTERISTIC SETTINGS_CHARACTERISTIC);
    [contradiction | reflexivity].
Qed.

(** The calls any public operation may make. *)
Lemma run_operation_keeps c0 depth op w :
  same_identity c0 (self w) ->
  same_identity c0 (self (run_operation depth op w))
  /\ exists new,
       calls (run_operation depth op w) = (calls w ++ new)%list
       /\ Forall (fun x =>
            x = Connect \/ x = auth_call c0
            \/ exists cmd,
                 x = write_call SETTINGS_CHARACTERISTIC
                       (MStr (dumps (command_data cmd)))) new.
Proof.
  intros Hid. destruct op as [cmd| | |d]; cbn [run_operation].
  - destruct (run_command_keeps (c0 := c0) depth cmd w Hid) as (Hid' & new & Hc & HP).
    split; [exact Hid'|]. exists new; split; [exact Hc|].
    eapply Forall_impl; [|exact HP].
    intros x [Hx | [Hx | Hx]]; [now left | now right; left |].
    right; right. now exists cmd.
  - split; [exact Hid|].
    exists []; split; [symmetry; apply app_nil_r | constructor].
  - split; [exact Hid|].
    exists []; split; [symmetry; apply app_nil_r | constructor].
  - destruct (new_client_keeps (c0 := c0) depth d w Hid) as (Hid' & new & Hc & HP).
    split; [exact Hid'|]. exists new; split; [exact Hc|].
    eapply Forall_impl; [|exact HP].
    intros x [Hx | Hx]; [now left | now right; left].
Qed.

(** What a command writes to the settings characteristic, in the three
    forms the claims on payloads use. *)
Lemma settings_write_cases depth cmd w t (text : string) :
  dumps (command_data cmd) = text ->
  _client (self w) = Some t ->
  let write :=
    WriteGattChar SETTINGS_CHARACTERISTIC (encode_utf8 text ++ [x00])%list in
  (is_connected t = true ->
   calls (snd (run_command (S (S depth)) cmd w)) = (calls w ++ [write])%list)
  /\ (is_connected t = false ->
      forall t1 t2,
        connect t = (None, t1) ->
        is_connected t1 = true ->
        write_gatt_char t1 AUTH_CHARACTERISTIC
          (wire_bytes AUTH_CHARACTERISTIC (MBytes (auth_string (self w))))
        = (None, t2) ->
        calls (snd (run_command (S (S depth)) cmd w))
        = (calls w ++ [Connect; auth_call (self w); write])%list)
  /\ (AUTH_CHARACTERISTIC <> SETTINGS_CHARACTERISTIC ->
      forall depth',
        exists new,
          calls (snd (run_command depth' cmd w)) = (calls w ++ new)%list
          /\ forall d, In (WriteGattChar SETTINGS_CHARACTERISTIC d) new ->
                       d = (encode_utf8 text ++ [x00])%list).
Proof.
  intros Htext Hc write.
  assert (Hwrite : write_call SETTINGS_CHARACTERISTIC
                     (MStr (dumps (command_data cmd))) = write).
  { unfold write_call, write. now rewrite wire_bytes_settings, Htext. }
  split; [|split].
  - intros Hl. rewrite run_command_json.
    now rewrite (write_message_connected _ _ _ _ Hc Hl),
      (on_client_some _ _ _ Hc), Hwrite.
  - intros Hl t1 t2 Hcon Hl1 Hw. rewrite run_command_json.
    now rewrite (write_message_handshake _ _ _ _ Hc Hl Hcon Hl1 Hw), Hwrite.
  - intros Hne depth'.
    destruct (run_command_keeps depth' cmd w (same_identity_refl (self w)))
      as (_ & new & Hcalls & HP).
    exists new. split; [exact Hcalls|]. intros d Hin.
    rewrite Forall_forall in HP.
    destruct (HP _ Hin) as [Hx | [Hx | Hx]].
    + discriminate Hx.
    + unfold auth_call in Hx. inversion Hx. congruence.
    + rewrite Hwrite in Hx. unfold write in Hx. now inversion Hx.
Qed.

Lemma set_power_text (state : bool) :
  dumps (command_data (SetPower state))
  = if state
    then dq "{'name':'MachineChangeMode','parameter':{'mode':'BrewingMode'}}"
    else dq "{'name':'MachineChangeMode','parameter':{'mode':'StandBy'}}".
Proof. destruct state; vm_compute; reflexivity. Qed.

Lemma set_steam_text (state : bool) :
  dumps (command_data (SetSteam state))
  = if state
    then dq ("{'name':'SettingBoilerEnable'," ++
             "'parameter':{'identifier':'SteamBoiler','state':true}}")
    else dq ("{'name':'SettingBoilerEnable'," ++
             "'parameter':{'identifier':'SteamBoiler','state':false}}").
Proof. destruct state; vm_compute; reflexivity. Qed.

(** *** The claims *)

(** C1: a command issued while the transport is not connected makes the
    transport connect, then the authentication write, then the command
    write, each once and in that order (the connect and the authentication
    write succeeding, the link being up after the connect); issued while
    the transport is connected, it makes the command write alone. *)
Theorem C1_connect_authenticate_write depth cmd w t :
  _client (self w) = Some t ->
  (is_connected t = false ->
   forall t1 t2,
     connect t = (None, t1) ->
     is_connected t1 = true ->
     write_gatt_char t1 AUTH_CHARACTERISTIC
       (wire_bytes AUTH_CHARACTERISTIC (MBytes (auth_string (self w))))
     = (None, t2) ->
     calls (snd (run_command (S (S depth)) cmd w))
     = (calls w
        ++ [Connect;
            auth_call (self w);
            write_call SETTINGS_CHARACTERISTIC
              (MStr (dumps (command_data cmd)))])%list)
  /\ (is_connected t = true ->
      calls (snd (run_command (S (S depth)) cmd w))
      = (calls w
         ++ [write_call SETTINGS_CHARACTERISTIC
               (MStr (dumps (command_data cmd)))])%list).
Proof.
  intros Hc. rewrite run_command_json. split.
  - intros Hl t1 t2 Hcon Hl1 Hw.
    now rewrite (write_message_handshake _ _ _ _ Hc Hl Hcon Hl1 Hw).
  - intros Hl.
    now rewrite (write_message_connected _ _ _ _ Hc Hl),
      (on_client_some _ _ _ Hc).
Qed.

(** C2: the bytes written to the authentication characteristic are
    base64(username ":" serial_number), an at sign, base64(token), with no
    zero byte after them: [_authenticate] on a connected transport makes
    that one write, every write to the authentication characteristic that
    a public operation makes carries these bytes, and they do not end in a
    zero byte. *)
Theorem C2_authentication_payload
    (username serial_number token : string) (a : option string) t
    (l : list call) :
  AUTH_CHARACTERISTIC <> SETTINGS_CHARACTERISTIC ->
  let w := mkWorld (mkClient username serial_number token a (Some t)) l in
  let payload :=
    (Base64.b64encode (encode_utf8 (username ++ ":" ++ serial_number))
       ++ encode_utf8 "@" ++ Base64.b64encode (encode_utf8 token))%list in
  (forall depth,
     is_connected t = true ->
     calls (snd (_authenticate (S depth) w))
     = (l ++ [WriteGattChar AUTH_CHARACTERISTIC payload])%list)
  /\ (forall depth op,
        exists new,
          calls (run_operation depth op w) = (l ++ new)%list
          /\ forall d, In (WriteGattChar AUTH_CHARACTERISTIC d) new ->
                       d = payload)
  /\ (forall pre, payload <> (pre ++ [x00])%list).
Proof.
  intros Hne w payload.
  assert (Hpay : wire_bytes AUTH_CHARACTERISTIC (MBytes (auth_string (self w)))
                 = payload) by (now rewrite wire_bytes_auth).
  split; [|split].
  - intros depth Hl.
    rewrite (authenticate_connected depth w (t := t) eq_refl Hl).
    rewrite (on_client_some _ _ w (t := t) eq_refl). cbn [snd calls].
    unfold auth_call. now rewrite Hpay.
  - intros depth op.
    destruct (run_operation_keeps depth op w (same_identity_refl (self w)))
      as (_ & new & Hc & HP).
    exists new. split; [exact Hc|]. intros d Hin.
    rewrite Forall_forall in HP.
    destruct (HP _ Hin) as [Hx | [Hx | [cmd Hx]]].
    + discriminate Hx.
    + unfold auth_call in Hx. rewrite Hpay in Hx. now inversion Hx.
    + unfold write_call in Hx. inversion Hx. contradiction.
  - apply no_trailing_nul. unfold payload.
    repeat (apply Forall_app; split); try apply b64encode_not_nul.
    repeat constructor. discriminate.
Qed.

(** C3: [set_power(True)] writes to the settings characteristic the
    compact JSON text of the mode change to BrewingMode followed by one
    zero byte, and [set_power(False)] the same with StandBy: as the only
    call on a connected transport, as the third call after a handshake,
    and as the bytes of every settings write the command makes. *)
Theorem C3_set_power_bytes depth (state : bool) w t :
  _client (self w) = Some t ->
  let text :=
    if state
    then dq "{'name':'MachineChangeMode','parameter':{'mode':'BrewingMode'}}"
    else dq "{'name':'MachineChangeMode','parameter':{'mode':'StandBy'}}" in
  let write :=
    WriteGattChar SETTINGS_CHARACTERISTIC (encode_utf8 text ++ [x00])%list in
  (is_connected t = true ->
   calls (snd (set_power (S (S depth)) state w)) = (calls w ++ [write])%list)
  /\ (is_connected t = false ->
      forall t1 t2,
        connect t = (None, t1) ->
        is_connected t1 = true ->
        write_gatt_char t1 AUTH_CHARACTERISTIC
          (wire_bytes AUTH_CHARACTERISTIC (MBytes (auth_string (self w))))
        = (None, t2) ->
        calls (snd (set_power (S (S depth)) state w))
        = (calls w ++ [Connect; auth_call (self w); write])%list)
  /\ (AUTH_CHARACTERISTIC <> SETTINGS_CHARACTERISTIC ->
      forall depth',
        exists new,
          calls (snd (set_power depth' state w)) = (calls w ++ new)%list
          /\ forall d, In (WriteGattChar SETTINGS_CHARACTERISTIC d) new ->
                       d = (encode_utf8 text ++ [x00])%list).
Proof.
  intros Hc text write.
  change (@set_power T transport const)
    with (fun d s => run_command d (SetPower s)).
  cbv beta.
  exact (settings_write_cases depth (SetPower state) w
           (set_power_text state) Hc).
Qed.

(** C7: [set_steam(True)] writes to the settings characteristic the compact
    JSON text of the steam boiler enable with state true followed by one
    zero byte, and [set_steam(False)] the same with state false. *)
Theorem C7_set_steam_bytes depth (state : bool) w t :
  _client (self w) = Some t ->
  let text :=
    if state
    then dq ("{'name':'SettingBoilerEnable'," ++
             "'parameter':{'identifier':'SteamBoiler','state':true}}")
    else dq ("{'name':'SettingBoilerEnable'," ++
             "'parameter':{'identifier':'SteamBoiler','state':false}}") in
  let write :=
    WriteGattChar SETTINGS_CHARACTERISTIC (encode_utf8 text ++ [x00])%list in
  (is_connected t = true ->
   calls (snd (set_steam (S (S depth)) state w)) = (calls w ++ [write])%list)
  /\ (is_connected t = false ->
      forall t1 t2,
        connect t = (None, t1) ->
        is_connected t1 = true ->
        write_gatt_char t1 AUTH_CHARACTERISTIC
          (wire_bytes AUTH_CHARACTERISTIC (MBytes (auth_string (self w))))
        = (None, t2) ->
        calls (snd (set_steam (S (S depth)) state w))
        = (calls w ++ [Connect; auth_call (self w); write])%list)
  /\ (AUTH_CHARACTERISTIC <> SETTINGS_CHARACTERISTIC ->
      forall depth',
        exists new,
          calls (snd (set_steam depth' state w)) = (calls w ++ new)%list
          /\ forall d, In (WriteGattChar SETTINGS_CHARACTERISTIC d) new ->
                       d = (encode_utf8 text ++ [x00])%list).
Proof.
  intros Hc text write.
  change (@set_steam T transport const)
    with (fun d s => run_command d (SetSteam s)).
  cbv beta.
  exact (settings_write_cases depth (SetSteam state) w
           (set_steam_text state) Hc).
Qed.

(** C4, as the code has it: when the connect or the authentication write
    of a command's connection sequence raises a BLE error or a timeout,
    the command raises [BluetoothConnectionFailed] with that exception as
    its cause and makes no write to the settings characteristic; the
    client does not touch the link: [connected] then reports the link
    state that the failing transport call left. *)
Theorem C4_connection_failed depth cmd w t :
  AUTH_CHARACTERISTIC <> SETTINGS_CHARACTERISTIC ->
  _client (self w) = Some t ->
  is_connected t = false ->
  (forall e t1,
     connect t = (Some e, t1) ->
     is_bleak_or_timeout e = true ->
     let r := run_command (S (S depth)) cmd w in
     fst r = inl (BluetoothConnectionFailed
                    ("Failed to connect to machine with Bluetooth: "
                       ++ str_exn e) e)
     /\ calls (snd r) = (calls w ++ [Connect])%list
     /\ connected (self (snd r)) = is_connected t1)
  /\ (forall t1 e t2,
        connect t = (None, t1) ->
        is_connected t1 = true ->
        write_gatt_char t1 AUTH_CHARACTERISTIC
          (wire_bytes AUTH_CHARACTERISTIC (MBytes (auth_string (self w))))
        = (Some e, t2) ->
        is_bleak_or_timeout e = true ->
        let r := run_command (S (S depth)) cmd w in
        fst r = inl (BluetoothConnectionFailed
                       ("Failed to connect to machine with Bluetooth: "
                          ++ str_exn e) e)
        /\ calls (snd r) = (calls w ++ [Connect; auth_call (self w)])%list
        /\ (forall d,
              ~ In (WriteGattChar SETTINGS_CHARACTERISTIC d)
                  [Connect; auth_call (self w)])
        /\ connected (self (snd r)) = is_connected t2).
Proof.
  intros Hne Hc Hl. rewrite run_command_json. split.
  - intros e t1 Hcon He r. subst r.
    rewrite (write_message_connect_raises _ _ _ _ Hc Hl Hcon), He.
    repeat split.
  - intros t1 e t2 Hcon Hl1 Hw He r. subst r.
    rewrite (write_message_auth_raises _ _ _ _ Hc Hl Hcon Hl1 Hw), He.
    repeat split.
    intros d [Hx | [Hx | []]]; [discriminate Hx|].
    unfold auth_call in Hx. inversion Hx. congruence.
Qed.

(** C6: when no advertiser of the scan has a name that starts with a
    supported prefix (advertisers without a name included), [create] raises
    [BluetoothDeviceNotFound] and the object it was building has no
    address (and no transport handle). *)
Theorem C6_no_match_device_not_found
    (username serial_number token : string) (init_client : bool)
    (bleak_scanner : option BaseBleakScanner) (devices : list BLEDevice) :
  discover (match bleak_scanner with
            | None => BleakScanner
            | Some scanner => scanner
            end) = inr devices ->
  (forall d name,
     In d devices -> device_name d = Some name ->
     startswith name BT_MODEL_NAMES = false) ->
  create BleakScanner username serial_number token init_client bleak_scanner
  = (inl (BluetoothDeviceNotFound "Couldn't find a machine"),
     mkWorld (mkClient username serial_number token None None) []).
Proof.
  intros Hscan Hnone.
  assert (Hfind : find supported (rev devices) = None).
  { apply find_none_of. intros d Hd. apply not_supported.
    intros name Hname. apply (Hnone d name); [|exact Hname].
    now apply in_rev. }
  unfold create. unfold bind at 1.
  assert (Hdisc :
    (match bleak_scanner with
     | None => _discover_device BleakScanner
     | Some scanner => _discover_device scanner
     end) (mkWorld (__init__ username serial_number token None) [])
    = (inr tt, mkWorld (mkClient username serial_number token None None) [])).
  { destruct bleak_scanner as [scanner|];
      rewrite (discover_device_last_match _ _ Hscan), Hfind; reflexivity. }
  rewrite Hdisc. reflexivity.
Qed.

(** C8: the address of an object whose [_address] was never set (as
    [__init__] without a device leaves it) raises [ClientNotInitialized];
    a command on an object without a transport handle raises
    [ClientNotInitialized] and leaves the world as it was: no connect, no
    write. *)
Theorem C8_not_initialized depth cmd w c
    (username serial_number token : string) :
  (_address c = None ->
   address c = inl (ClientNotInitialized "Bluetooth client not initialized"))
  /\ address (__init__ username serial_number token None)
     = inl (ClientNotInitialized "Bluetooth client not initialized")
  /\ (_client (self w) = None ->
      run_command (S depth) cmd w
      = (inl (ClientNotInitialized "Bluetooth client not initialized"), w)).
Proof.
  split; [|split].
  - intros Ha. unfold address. now rewrite Ha.
  - reflexivity.
  - intros Hc. rewrite run_command_json, write_message_step.
    unfold bind, get_self. now rewrite Hc.
Qed.

(** C9: whatever public operations are run on a session, in whatever
    order, its username, serial number and token stay what construction
    made them, and so does its address: no operation sets it again. *)
Theorem C9_credentials_and_address_fixed depth (ops : list operation) w :
  _username (self (run_operations depth ops w)) = _username (self w)
  /\ _serial_number (self (run_operations depth ops w))
     = _serial_number (self w)
  /\ _token (self (run_operations depth ops w)) = _token (self w)
  /\ _address (self (run_operations depth ops w)) = _address (self w).
Proof.
  change (same_identity (self w) (self (run_operations depth ops w))).
  unfold run_operations.
  generalize (same_identity_refl (self w)).
  generalize (self w) at 1 3. revert w.
  induction ops as [|op ops IH]; intros w c0 Hid; [exact Hid|].
  cbn [fold_left]. apply IH.
  exact (proj1 (run_operation_keeps depth op w Hid)).
Qed.

(** C10: [new_client_from_ble_device] replaces the transport handle by a
    client built from the device, connects and authenticates, and leaves
    [_address] as it was: on an object made by [__init__] without a
    device the address still raises [ClientNotInitialized] after a
    successful binding, while [connected] reports the link of the new
    handle. *)
Theorem C10_manual_binding_keeps_address depth (ble_device : BLEDevice) w :
  _address (self (snd (new_client_from_ble_device depth ble_device w)))
  = _address (self w)
  /\ (_address (self w) = None ->
      address (self (snd (new_client_from_ble_device depth ble_device w)))
      = inl (ClientNotInitialized "Bluetooth client not initialized"))
  /\ (forall t1 t2,
        connect (BleakClient (inl ble_device)) = (None, t1) ->
        is_connected t1 = true ->
        write_gatt_char t1 AUTH_CHARACTERISTIC
          (wire_bytes AUTH_CHARACTERISTIC (MBytes (auth_string (self w))))
        = (None, t2) ->
        new_client_from_ble_device (S depth) ble_device w
        = (inr tt,
           mkWorld (set_client (Some t2) (self w))
             (calls w ++ [Connect; auth_call (self w)]))
        /\ connected
             (self (snd (new_client_from_ble_device (S depth) ble_device w)))
           = is_connected t2).
Proof.
  assert (Hsame :
    _address (self (snd (new_client_from_ble_device depth ble_device w)))
    = _address (self w)).
  { destruct (new_client_keeps depth ble_device w
                (same_identity_refl (self w))) as ((_ & _ & _ & Ha) & _).
    exact Ha. }
  split; [exact Hsame | split].
  - intros Ha. unfold address. now rewrite Hsame, Ha.
  - intros t1 t2 Hcon Hl1 Hw.
    match goal with
    | |- ?lhs = ?rhs /\ _ =>
        assert (Hrun : lhs = rhs); [|split; [exact Hrun | now rewrite Hrun]]
    end.
    unfold new_client_from_ble_device. unfold bind at 1.
    cbn [modify_self]. unfold try_except. unfold bind at 1.
    set (w0 := mkWorld _ (calls w)).
    assert (Hc0 : _client (self w0) = Some (BleakClient (inl ble_device)))
      by reflexivity.
    rewrite (on_client_some _ _ _ Hc0), Hcon. cbn [fst snd].
    set (w1 := mkWorld _ _).
    assert (Hc1 : _client (self w1) = Some t1) by reflexivity.
    rewrite (authenticate_connected _ _ Hc1 Hl1), (on_client_some _ _ _ Hc1).
    change (auth_string (self w1)) with (auth_string (self w)).
    rewrite Hw. cbn [fst snd]. subst w1 w0. cbn [calls self].
    rewrite <- app_assoc. reflexivity.
Qed.

(** *** Further properties of the commands *)

Lemma set_temp_text (boiler : LaMarzoccoBoilerType) (temperature : Z) :
  plain (boiler_value boiler) = true ->
  dumps (command_data (SetTemp boiler temperature))
  = dq "{'name':'SettingBoilerTarget','parameter':{'identifier':'"
    ++ boiler_value boiler ++ dq "','value':" ++ int_repr temperature ++ "}}".
Proof.
  intros Hplain. cbn [command_data dumps].
  rewrite (encode_basestring_ascii_plain _ Hplain).
  change (encode_basestring_ascii "name") with (dq "'name'").
  change (encode_basestring_ascii "SettingBoilerTarget")
    with (dq "'SettingBoilerTarget'").
  change (encode_basestring_ascii "parameter") with (dq "'parameter'").
  change (encode_basestring_ascii "identifier") with (dq "'identifier'").
  change (encode_basestring_ascii "value") with (dq "'value'").
  change quote with (dq "'").
  cbn [append dq Ascii.eqb Bool.eqb].
  repeat (rewrite !string_app_assoc; cbn [append]).
  reflexivity.
Qed.

(** X1: [set_temp] on a connected transport makes one write, to the
    settings characteristic: the compact JSON text naming
    SettingBoilerTarget, the boiler identifier as it is (when it has no
    character that JSON escapes) and the temperature in decimal, followed
    by one zero byte. *)
Theorem X1_set_temp_bytes depth (boiler : LaMarzoccoBoilerType)
    (temperature : Z) w t :
  plain (boiler_value boiler) = true ->
  _client (self w) = Some t ->
  is_connected t = true ->
  calls (snd (set_temp (S depth) boiler temperature w))
  = (calls w
     ++ [WriteGattChar SETTINGS_CHARACTERISTIC
           (encode_utf8
              (dq "{'name':'SettingBoilerTarget','parameter':{'identifier':'"
               ++ boiler_value boiler ++ dq "','value':"
               ++ int_repr temperature ++ "}}")
            ++ [x00])])%list.
Proof.
  intros Hplain Hc Hl.
  change (set_temp (S depth) boiler temperature)
    with (run_command (S depth) (SetTemp boiler temperature)).
  rewrite run_command_json, (write_message_connected _ _ _ _ Hc Hl),
    (on_client_some _ _ _ Hc).
  cbn [snd calls]. unfold write_call.
  now rewrite wire_bytes_settings, (set_temp_text _ _ Hplain).
Qed.

(** X2: the write of the command itself is outside the [try]: when it
    raises, the command raises that very exception, a [BleakError]
    included, and not [BluetoothConnectionFailed]; this on a connected
    transport and after a handshake alike. *)
Theorem X2_command_write_error_not_wrapped depth cmd w t e :
  _client (self w) = Some t ->
  (is_connected t = true ->
   forall t',
     write_gatt_char t SETTINGS_CHARACTERISTIC
       (wire_bytes SETTINGS_CHARACTERISTIC (MStr (dumps (command_data cmd))))
     = (Some e, t') ->
     run_command (S (S depth)) cmd w
     = (inl e,
        mkWorld (set_client (Some t') (self w))
          (calls w
           ++ [write_call SETTINGS_CHARACTERISTIC
                 (MStr (dumps (command_data cmd)))])))
  /\ (is_connected t = false ->
      forall t1 t2 t3,
        connect t = (None, t1) ->
        is_connected t1 = true ->
        write_gatt_char t1 AUTH_CHARACTERISTIC
          (wire_bytes AUTH_CHARACTERISTIC (MBytes (auth_string (self w))))
        = (None, t2) ->
        write_gatt_char t2 SETTINGS_CHARACTERISTIC
          (wire_bytes SETTINGS_CHARACTERISTIC
             (MStr (dumps (command_data cmd))))
        = (Some e, t3) ->
        run_command (S (S depth)) cmd w
        = (inl e,
           mkWorld (set_client (Some t3) (self w))
             (calls w
              ++ [Connect; auth_call (self w);
                  write_call SETTINGS_CHARACTERISTIC
                    (MStr (dumps (command_data cmd)))]))).
Proof.
  intros Hc. rewrite run_command_json. split.
  - intros Hl t' Hw.
    now rewrite (write_message_connected _ _ _ _ Hc Hl),
      (on_client_some _ _ _ Hc), Hw.
  - intros Hl t1 t2 t3 Hcon Hl1 Hauth Hw.
    now rewrite (write_message_handshake _ _ _ _ Hc Hl Hcon Hl1 Hauth), Hw.
Qed.

(** X3: an exception of the connect or of the authentication write that
    is neither a [BleakError] nor a [TimeoutError] is not wrapped: the
    command raises it as it is, and makes no settings write. *)
Theorem X3_other_errors_pass_through depth cmd w t e :
  _client (self w) = Some t ->
  is_connected t = false ->
  is_bleak_or_timeout e = false ->
  (forall t1,
     connect t = (Some e, t1) ->
     run_command (S (S depth)) cmd w
     = (inl e,
        mkWorld (set_client (Some t1) (self w)) (calls w ++ [Connect])))
  /\ (forall t1 t2,
        connect t = (None, t1) ->
        is_connected t1 = true ->
        write_gatt_char t1 AUTH_CHARACTERISTIC
          (wire_bytes AUTH_CHARACTERISTIC (MBytes (auth_string (self w))))
        = (Some e, t2) ->
        run_command (S (S depth)) cmd w
        = (inl e,
           mkWorld (set_client (Some t2) (self w))
             (calls w ++ [Connect; auth_call (self w)]))).
Proof.
  intros Hc Hl He. rewrite run_command_json. split.
  - intros t1 Hcon.
    now rewrite (write_message_connect_raises _ _ _ _ Hc Hl Hcon), He.
  - intros t1 t2 Hcon Hl1 Hw.
    now rewrite (write_message_auth_raises _ _ _ _ Hc Hl Hcon Hl1 Hw), He.
Qed.

(** *** Commands in sequence *)

(** The world a command leaves after a handshake and a write that both
    succeed. *)
Lemma run_command_handshake depth cmd w t t1 t2 t3 :
  _client (self w) = Some t ->
  is_connected t = false ->
  connect t = (None, t1) ->
  is_connected t1 = true ->
  write_gatt_char t1 AUTH_CHARACTERISTIC
    (wire_bytes AUTH_CHARACTERISTIC (MBytes (auth_string (self w))))
  = (None, t2) ->
  write_gatt_char t2 SETTINGS_CHARACTERISTIC
    (wire_bytes SETTINGS_CHARACTERISTIC (MStr (dumps (command_data cmd))))
  = (None, t3) ->
  run_command (S (S depth)) cmd w
  = (inr tt,
     mkWorld (set_client (Some t3) (self w))
       (calls w
        ++ [Connect; auth_call (self w);
            write_call SETTINGS_CHARACTERISTIC
              (MStr (dumps (command_data cmd)))])).
Proof.
  intros Hc Hl Hcon Hl1 Hauth Hw. rewrite run_command_json.
  now rewrite (write_message_handshake _ _ _ _ Hc Hl Hcon Hl1 Hauth), Hw.
Qed.

(** X4: when the link is still up after a first command, a second command
    makes its write alone: the connection is reused and the
    authentication is not sent again. *)
Theorem X4_connection_reused depth cmd1 cmd2 w t t1 t2 t3 :
  _client (self w) = Some t ->
  is_connected t = false ->
  connect t = (None, t1) ->
  is_connected t1 = true ->
  write_gatt_char t1 AUTH_CHARACTERISTIC
    (wire_bytes AUTH_CHARACTERISTIC (MBytes (auth_string (self w))))
  = (None, t2) ->
  write_gatt_char t2 SETTINGS_CHARACTERISTIC
    (wire_bytes SETTINGS_CHARACTERISTIC (MStr (dumps (command_data cmd1))))
  = (None, t3) ->
  is_connected t3 = true ->
  calls (run_operations (S (S depth)) [Command cmd1; Command cmd2] w)
  = (calls w
     ++ [Connect; auth_call (self w);
         write_call SETTINGS_CHARACTERISTIC
           (MStr (dumps (command_data cmd1)));
         write_call SETTINGS_CHARACTERISTIC
           (MStr (dumps (command_data cmd2)))])%list.
Proof.
  intros Hc Hl Hcon Hl1 Hauth Hw Hl3.
  cbn [run_operations fold_left run_operation].
  rewrite (run_command_handshake depth cmd1 _ Hc Hl Hcon Hl1 Hauth Hw).
  cbn [snd]. set (w1 := mkWorld _ _).
  assert (Hc1 : _client (self w1) = Some t3) by reflexivity.
  rewrite run_command_json, (write_message_connected _ _ _ _ Hc1 Hl3),
    (on_client_some _ _ _ Hc1).
  subst w1. cbn [snd calls]. now rewrite <- app_assoc.
Qed.

(** X5: when the link is down again after a first command, a second
    command connects again and sends the authentication again before its
    write: the authentication is not remembered across connections. *)
Theorem X5_reconnect_authenticates_again depth cmd1 cmd2 w t t1 t2 t3 t4 t5 :
  _client (self w) = Some t ->
  is_connected t = false ->
  connect t = (None, t1) ->
  is_connected t1 = true ->
  write_gatt_char t1 AUTH_CHARACTERISTIC
    (wire_bytes AUTH_CHARACTERISTIC (MBytes (auth_string (self w))))
  = (None, t2) ->
  write_gatt_char t2 SETTINGS_CHARACTERISTIC
    (wire_bytes SETTINGS_CHARACTERISTIC (MStr (dumps (command_data cmd1))))
  = (None, t3) ->
  is_connected t3 = false ->
  connect t3 = (None, t4) ->
  is_connected t4 = true ->
  write_gatt_char t4 AUTH_CHARACTERISTIC
    (wire_bytes AUTH_CHARACTERISTIC (MBytes (auth_string (self w))))
  = (None, t5) ->
  calls (run_operations (S (S depth)) [Command cmd1; Command cmd2] w)
  = (calls w
     ++ [Connect; auth_call (self w);
         write_call SETTINGS_CHARACTERISTIC
           (MStr (dumps (command_data cmd1)));
         Connect; auth_call (self w);
         write_call SETTINGS_CHARACTERISTIC
           (MStr (dumps (command_data cmd2)))])%list.
Proof.
  intros Hc Hl Hcon Hl1 Hauth Hw Hl3 Hcon3 Hl4 Hauth4.
  cbn [run_operations fold_left run_operation].
  rewrite (run_command_handshake depth cmd1 _ Hc Hl Hcon Hl1 Hauth Hw).
  cbn [snd]. set (w1 := mkWorld _ _).
  assert (Hc1 : _client (self w1) = Some t3) by reflexivity.
  rewrite run_command_json,
    (write_message_handshake _ _ _ w1 Hc1 Hl3 Hcon3 Hl4 Hauth4).
  subst w1. cbn [snd calls]. now rewrite <- app_assoc.
Qed.

(** *** What no operation does *)

Lemma run_operations_keeps c0 depth ops :
  forall w,
    same_identity c0 (self w) ->
    exists new,
      calls (run_operations depth ops w) = (calls w ++ new)%list
      /\ Forall (fun x =>
           x = Connect \/ x = auth_call c0
           \/ exists cmd,
                x = write_call SETTINGS_CHARACTERISTIC
                      (MStr (dumps (command_data cmd)))) new.
Proof.
  unfold run_operations.
  induction ops as [|op ops IH]; intros w Hid.
  - exists []. split; [symmetry; apply app_nil_r | constructor].
  - cbn [fold_left].
    destruct (run_operation_keeps depth op w Hid) as (Hid1 & new1 & Hc1 & HP1).
    destruct (IH _ Hid1) as (new2 & Hc2 & HP2).
    exists (new1 ++ new2)%list. split.
    + now rewrite Hc2, Hc1, app_assoc.
    + apply Forall_app; now split.
Qed.

(** X6: whatever public operations are run, every call they make on the
    transport is a connect, a write of the authentication bytes of the
    session to the authentication characteristic, or a write to the
    settings characteristic of the JSON text of a command followed by a
    zero byte; nothing else is ever written, to no other characteristic. *)
Theorem X6_only_authentication_and_commands depth (ops : list operation) w :
  exists new,
    calls (run_operations depth ops w) = (calls w ++ new)%list
    /\ forall x, In x new ->
         x = Connect
         \/ x = WriteGattChar AUTH_CHARACTERISTIC
                  (wire_bytes AUTH_CHARACTERISTIC
                     (MBytes (auth_string (self w))))
         \/ exists cmd,
              x = WriteGattChar SETTINGS_CHARACTERISTIC
                    (encode_utf8 (dumps (command_data cmd)) ++ [x00])%list.
Proof.
  destruct (run_operations_keeps depth ops w (same_identity_refl (self w)))
    as (new & Hc & HP).
  exists new. split; [exact Hc|]. intros x Hx.
  rewrite Forall_forall in HP.
  destruct (HP x Hx) as [H | [H | [cmd H]]]; [now left | now right; left |].
  right; right. exists cmd. rewrite H. unfold write_call.
  now rewrite wire_bytes_settings.
Qed.

(** X7: the JSON text of a command is made of characters from the space
    to the tilde, whatever the boiler identifier and the temperature: no
    byte of it is zero, so that the zero byte that ends a settings write
    is the only one. *)
Theorem X7_command_text_is_printable (cmd : command) :
  Forall (fun b => (32 <= Byte.to_N b <= 126)%N)
    (encode_utf8 (dumps (command_data cmd))).
Proof. apply printable_bytes, printable_dumps. Qed.

(** *** More on [create] *)

Lemma create_after_scan (username serial_number token : string)
    (init_client : bool) (bleak_scanner : option BaseBleakScanner)
    (devices : list BLEDevice) :
  discover (match bleak_scanner with
            | None => BleakScanner
            | Some scanner => scanner
            end) = inr devices ->
  create BleakScanner username serial_number token init_client bleak_scanner
  = match find supported (rev devices) with
    | Some d =>
        match device_address d with
        | EmptyString =>
            (inl (BluetoothDeviceNotFound "Couldn't find a machine"),
             mkWorld (mkClient username serial_number token (Some "") None) [])
        | String a0 a =>
            let c :=
              mkClient username serial_number token (Some (String a0 a))
                (if init_client
                 then Some (BleakClient (inr (String a0 a)))
                 else None) in
            (inr c, mkWorld c [])
        end
    | None =>
        (inl (BluetoothDeviceNotFound "Couldn't find a machine"),
         mkWorld (mkClient username serial_number token None None) [])
    end.
Proof.
  intros Hscan. unfold create. unfold bind at 1.
  assert (Hdisc :
    (match bleak_scanner with
     | None => _discover_device BleakScanner
     | Some scanner => _discover_device scanner
     end) (mkWorld (__init__ username serial_number token None) [])
    = (inr tt,
       mkWorld
         (set_address
            (match find supported (rev devices) with
             | Some d => Some (device_address d)
             | None => None
             end) (__init__ username serial_number token None)) [])).
  { destruct bleak_scanner as [scanner|];
      now rewrite (discover_device_last_match _ _ Hscan). }
  rewrite Hdisc.
  destruct (find supported (rev devices)) as [d|]; [|reflexivity].
  unfold bind, get_self. cbn [self set_address _address].
  destruct (device_address d) as [|a0 a]; [reflexivity|].
  destruct init_client; reflexivity.
Qed.

Lemma create_scan_raises (username serial_number token : string)
    (init_client : bool) (bleak_scanner : option BaseBleakScanner) e :
  discover (match bleak_scanner with
            | None => BleakScanner
            | Some scanner => scanner
            end) = inl e ->
  create BleakScanner username serial_number token init_client bleak_scanner
  = (inl e, mkWorld (mkClient username serial_number token None None) []).
Proof.
  intros Hscan. unfold create. unfold bind at 1.
  destruct bleak_scanner as [scanner|]; unfold _discover_device;
    now rewrite Hscan.
Qed.

(** X8: when exactly one advertiser of the scan is supported, wherever it
    stands among the others, and its address is not empty, [create] gives
    an object with that address, whose [address] returns it, with a
    transport handle for that address when [init_client] is set and none
    otherwise; [create] itself makes no call on the transport. *)
Theorem X8_create_single_match (username serial_number token : string)
    (init_client : bool) (bleak_scanner : option BaseBleakScanner)
    (before after : list BLEDevice) (d : BLEDevice) :
  discover (match bleak_scanner with
            | None => BleakScanner
            | Some scanner => scanner
            end) = inr (before ++ d :: after)%list ->
  supported d = true ->
  (forall x, In x before -> supported x = false) ->
  (forall x, In x after -> supported x = false) ->
  device_address d <> "" ->
  let c :=
    mkClient username serial_number token (Some (device_address d))
      (if init_client
       then Some (BleakClient (inr (device_address d)))
       else None) in
  create BleakScanner username serial_number token init_client bleak_scanner
  = (inr c, mkWorld c [])
  /\ address c = inr (device_address d).
Proof.
  intros Hscan Hd Hbefore Hafter Haddr c.
  split; [|reflexivity].
  rewrite (create_after_scan _ _ _ _ _ Hscan).
  rewrite rev_app_distr. cbn [rev]. rewrite <- app_assoc.
  rewrite find_skip by (intros x Hx; apply Hafter; now apply in_rev).
  cbn [app find]. rewrite Hd. subst c.
  destruct (device_address d) as [|a0 a]; [contradiction | reflexivity].
Qed.

(** X9: an exception of the scan is not caught by [create]: it is raised
    as it is, a [BleakError] included, and the object under construction
    has neither an address nor a transport handle. *)
Theorem X9_create_scan_error_passes (username serial_number token : string)
    (init_client : bool) (bleak_scanner : option BaseBleakScanner) e :
  discover (match bleak_scanner with
            | None => BleakScanner
            | Some scanner => scanner
            end) = inl e ->
  create BleakScanner username serial_number token init_client bleak_scanner
  = (inl e, mkWorld (mkClient username serial_number token None None) []).
Proof. apply create_scan_raises. Qed.

(** X10: an object that [create] returns with [init_client] unset has no
    transport handle: [connected] is false and every command raises
    [ClientNotInitialized] without a call on the transport, until a handle
    is bound by [new_client_from_ble_device]. *)
Theorem X10_create_without_client (username serial_number token : string)
    (bleak_scanner : option BaseBleakScanner) c (w : world) :
  create BleakScanner username serial_number token false bleak_scanner
  = (inr c, w) ->
  self w = c
  /\ calls w = []
  /\ connected c = false
  /\ forall depth cmd,
       run_command (S depth) cmd w
       = (inl (ClientNotInitialized "Bluetooth client not initialized"), w).
Proof.
  intros Hcreate.
  assert (Hnone : self w = c /\ calls w = [] /\ _client c = None).
  { destruct (discover (match bleak_scanner with
                        | None => BleakScanner
                        | Some scanner => scanner
                        end)) as [e | devices] eqn:Hscan.
    - rewrite (create_scan_raises _ _ _ _ _ Hscan) in Hcreate.
      discriminate Hcreate.
    - rewrite (create_after_scan _ _ _ _ _ Hscan) in Hcreate.
      destruct (find supported (rev devices)) as [d|];
        [|discriminate Hcreate].
      destruct (device_address d) as [|a0 a]; [discriminate Hcreate|].
      cbv zeta in Hcreate. inversion Hcreate. now repeat split. }
  destruct Hnone as (Hself & Hcalls & Hclient).
  repeat split; [exact Hself | exact Hcalls | |].
  - unfold connected. now rewrite Hclient.
  - intros depth cmd. rewrite run_command_json, write_message_step.
    unfold bind, get_self. now rewrite Hself, Hclient.
Qed.

(** *** More on [new_client_from_ble_device] *)

(** X11: [new_client_from_ble_device] drops the handle the object had
    before it tries to connect: when the connect of the new handle
    raises, the object is left with the new handle, no authentication
    write is made, and the exception raised is
    [BluetoothConnectionFailed] around a [BleakError] or a
    [TimeoutError], the exception itself otherwise. *)
Theorem X11_failed_binding_replaces_handle depth (ble_device : BLEDevice) w
    e t1 :
  connect (BleakClient (inl ble_device)) = (Some e, t1) ->
  new_client_from_ble_device depth ble_device w
  = (inl (if is_bleak_or_timeout e
          then BluetoothConnectionFailed
                 ("Failed to connect to machine with Bluetooth: "
                    ++ str_exn e) e
          else e),
     mkWorld (set_client (Some t1) (self w)) (calls w ++ [Connect])).
Proof.
  intros Hcon. unfold new_client_from_ble_device. unfold bind at 1.
  cbn [modify_self]. unfold try_except. unfold bind at 1.
  set (w0 := mkWorld _ (calls w)).
  assert (Hc0 : _client (self w0) = Some (BleakClient (inl ble_device)))
    by reflexivity.
  rewrite (on_client_some _ _ _ Hc0), Hcon. cbn [fst snd].
  destruct (is_bleak_or_timeout e); reflexivity.
Qed.

(** *** A link that never comes up *)

Lemma write_message_stuck (stuck : T -> Prop) :
  (forall t, stuck t ->
     is_connected t = false
     /\ exists t', connect t = (None, t') /\ stuck t') ->
  forall depth characteristic msg w t,
    _client (self w) = Some t ->
    stuck t ->
    exists w',
      _write_bluetooth_message depth characteristic msg w
      = (inl RecursionError, w')
      /\ calls w' = (calls w ++ repeat Connect depth)%list.
Proof.
  intros Hstuck.
  induction depth as [|depth IH]; intros characteristic msg w t Hc Ht.
  - exists w. split; [reflexivity | symmetry; apply app_nil_r].
  - destruct (Hstuck t Ht) as (Hl & t' & Hcon & Ht').
    rewrite write_message_step.
    unfold bind at 1. unfold get_self at 1. rewrite Hc, Hl. cbn [negb].
    unfold bind at 1. unfold try_except. unfold bind at 1.
    rewrite (on_client_some _ _ _ Hc), Hcon. cbn [fst snd].
    set (w1 := mkWorld _ _).
    assert (Hc1 : _client (self w1) = Some t') by reflexivity.
    change (_authenticate depth w1)
      with (_write_bluetooth_message depth AUTH_CHARACTERISTIC
              (MBytes (auth_string (self w1))) w1).
    destruct (IH AUTH_CHARACTERISTIC (MBytes (auth_string (self w1)))
                w1 t' Hc1 Ht') as (w2 & Hrun & Hcalls).
    rewrite Hrun. cbn [is_bleak_or_timeout].
    exists w2. split; [reflexivity|].
    rewrite Hcalls. subst w1. cbn [calls repeat].
    now rewrite <- app_assoc.
Qed.

(** X12: on a transport whose connect returns without raising while
    [is_connected] stays false, a command never reaches a write: every
    nested [_write_bluetooth_message] connects again, and the command
    ends in [RecursionError] when the allowance of nested calls is used
    up, whatever that allowance. *)
Theorem X12_link_never_up_recursion (stuck : T -> Prop) depth cmd w t :
  (forall t0, stuck t0 ->
     is_connected t0 = false
     /\ exists t', connect t0 = (None, t') /\ stuck t') ->
  _client (self w) = Some t ->
  stuck t ->
  fst (run_command depth cmd w) = inl RecursionError
  /\ calls (snd (run_command depth cmd w))
     = (calls w ++ repeat Connect depth)%list.
Proof.
  intros Hstuck Hc Ht. rewrite run_command_json.
  destruct (@write_message_stuck stuck Hstuck depth SETTINGS_CHARACTERISTIC
              (MStr (dumps (command_data cmd))) w t Hc Ht)
    as (w' & Hrun & Hcalls).
  now rewrite Hrun.
Qed.

(** *** The separator of the authentication bytes *)

(** X13: the authentication bytes hold exactly one at sign, the one
    between the two base64 texts: neither text has one, whatever the
    credentials. *)
Theorem X13_one_separator c :
  exists user token : bytes,
    auth_string c = (user ++ "@"%byte :: token)%list
    /\ user = Base64.b64encode
                (encode_utf8 (_username c ++ ":" ++ _serial_number c))
    /\ token = Base64.b64encode (encode_utf8 (_token c))
    /\ Forall (fun b => b <> "@"%byte) user
    /\ Forall (fun b => b <> "@"%byte) token.
Proof.
  eexists; eexists. split; [reflexivity|].
  repeat split; apply b64encode_no_at.
Qed.

End Facts.

(** ** The statements on the scripted transport *)

#[local] Existing Instance Mock.transport.
#[local] Existing Instance Sample.const.

Lemma sample_characteristics_differ :
  AUTH_CHARACTERISTIC <> SETTINGS_CHARACTERISTIC.
Proof. discriminate. Qed.

Lemma C1_connect_authenticate_write_witness :
  calls (snd (run_command 2 (SetPower true)
                (Sample.session (Some Sample.down) (Some "AA:AA:AA:AA:AA:AA"))))
  = [Connect;
     WriteGattChar AUTH_CHARACTERISTIC (encode_utf8 "dTpz@dA==");
     WriteGattChar SETTINGS_CHARACTERISTIC
       (encode_utf8
          (dq "{'name':'MachineChangeMode','parameter':{'mode':'BrewingMode'}}")
        ++ [x00])%list]
  /\ calls (snd (run_command 2 (SetTemp Sample.COFFEE 94)
                   (Sample.session (Some Sample.up) (Some "AA:AA:AA:AA:AA:AA"))))
     = [WriteGattChar SETTINGS_CHARACTERISTIC
          (encode_utf8
             (dq ("{'name':'SettingBoilerTarget'," ++
                  "'parameter':{'identifier':'CoffeeBoiler1','value':94}}"))
           ++ [x00])%list].
Proof.
  split.
  - exact (proj1 (C1_connect_authenticate_write 0 (SetPower true)
                    (Sample.session (Some Sample.down) _) eq_refl)
             eq_refl Sample.up Sample.up eq_refl eq_refl eq_refl).
  - exact (proj2 (C1_connect_authenticate_write 0 (SetTemp Sample.COFFEE 94)
                    (Sample.session (Some Sample.up) _) eq_refl)
             eq_refl).
Defined.

Lemma C2_authentication_payload_witness :
  calls (snd (_authenticate 1
                (Sample.session (Some Sample.up) (Some "AA:AA:AA:AA:AA:AA"))))
  = [WriteGattChar AUTH_CHARACTERISTIC (encode_utf8 "dTpz@dA==")].
Proof.
  exact (proj1 (C2_authentication_payload "u" "s" "t"
                  (Some "AA:AA:AA:AA:AA:AA") Sample.up []
                  sample_characteristics_differ)
           0 eq_refl).
Defined.

Lemma C3_set_power_bytes_witness :
  calls (snd (set_power 2 true
                (Sample.session (Some Sample.up) (Some "AA:AA:AA:AA:AA:AA"))))
  = [WriteGattChar SETTINGS_CHARACTERISTIC
       (encode_utf8
          (dq "{'name':'MachineChangeMode','parameter':{'mode':'BrewingMode'}}")
        ++ [x00])%list]
  /\ calls (snd (set_power 2 false
                   (Sample.session (Some Sample.up) (Some "AA:AA:AA:AA:AA:AA"))))
     = [WriteGattChar SETTINGS_CHARACTERISTIC
          (encode_utf8
             (dq "{'name':'MachineChangeMode','parameter':{'mode':'StandBy'}}")
           ++ [x00])%list].
Proof.
  split.
  - exact (proj1 (C3_set_power_bytes 0 true
                    (Sample.session (Some Sample.up) _) eq_refl) eq_refl).
  - exact (proj1 (C3_set_power_bytes 0 false
                    (Sample.session (Some Sample.up) _) eq_refl) eq_refl).
Defined.

Lemma C7_set_steam_bytes_witness :
  calls (snd (set_steam 2 true
                (Sample.session (Some Sample.down) (Some "AA:AA:AA:AA:AA:AA"))))
  = [Connect;
     WriteGattChar AUTH_CHARACTERISTIC (encode_utf8 "dTpz@dA==");
     WriteGattChar SETTINGS_CHARACTERISTIC
       (encode_utf8
          (dq ("{'name':'SettingBoilerEnable'," ++
               "'parameter':{'identifier':'SteamBoiler','state':true}}"))
        ++ [x00])%list].
Proof.
  exact (proj1 (proj2 (C7_set_steam_bytes 0 true
                         (Sample.session (Some Sample.down) _) eq_refl))
           eq_refl Sample.up Sample.up eq_refl eq_refl eq_refl).
Defined.

(** The C4 claim fails where it says that the session remains Disconnected:
    the connect succeeds, the authentication write raises a [BleakError],
    the command raises [BluetoothConnectionFailed] without a settings
    write, and [connected] reports true; the next command is then written
    on that link with no authentication before it. *)
Lemma C4_counterexample :
  let w := Sample.session (Some Sample.auth_refused)
             (Some "AA:AA:AA:AA:AA:AA") in
  let r := run_command 2 (SetPower true) w in
  connected (self w) = false
  /\ fst r = inl (BluetoothConnectionFailed
                    "Failed to connect to machine with Bluetooth: write failed"
                    (BleakError "write failed"))
  /\ calls (snd r)
     = [Connect; WriteGattChar AUTH_CHARACTERISTIC (encode_utf8 "dTpz@dA==")]
  /\ connected (self (snd r)) = true
  /\ calls (snd (run_command 2 (SetPower true) (snd r)))
     = [Connect; WriteGattChar AUTH_CHARACTERISTIC (encode_utf8 "dTpz@dA==");
        WriteGattChar SETTINGS_CHARACTERISTIC
          (encode_utf8
             (dq ("{'name':'MachineChangeMode'," ++
                  "'parameter':{'mode':'BrewingMode'}}"))
           ++ [x00])%list].
Proof. vm_compute. repeat split. Qed.

Lemma C4_connection_failed_witness :
  (let r := run_command 2 (SetSteam true)
              (Sample.session (Some Sample.unreachable)
                 (Some "AA:AA:AA:AA:AA:AA")) in
   fst r = inl (BluetoothConnectionFailed
                  "Failed to connect to machine with Bluetooth: timed out"
                  (TimeoutError "timed out"))
   /\ calls (snd r) = [Connect]
   /\ connected (self (snd r)) = false)
  /\ (let r := run_command 2 (SetSteam true)
                 (Sample.session (Some Sample.auth_refused)
                    (Some "AA:AA:AA:AA:AA:AA")) in
      fst r = inl (BluetoothConnectionFailed
                     "Failed to connect to machine with Bluetooth: write failed"
                     (BleakError "write failed"))
      /\ calls (snd r)
         = [Connect;
            WriteGattChar AUTH_CHARACTERISTIC (encode_utf8 "dTpz@dA==")]
      /\ (forall d,
            ~ In (WriteGattChar SETTINGS_CHARACTERISTIC d)
                [Connect;
                 WriteGattChar AUTH_CHARACTERISTIC (encode_utf8 "dTpz@dA==")])
      /\ connected (self (snd r)) = true).
Proof.
  split.
  - exact (proj1 (C4_connection_failed 0 (SetSteam true)
                    (Sample.session (Some Sample.unreachable) _)
                    sample_characteristics_differ eq_refl eq_refl)
             (TimeoutError "timed out") (Mock.mk false []) eq_refl eq_refl).
  - exact (proj2 (C4_connection_failed 0 (SetSteam true)
                    (Sample.session (Some Sample.auth_refused) _)
                    sample_characteristics_differ eq_refl eq_refl)
             (Mock.mk true [(Some (BleakError "write failed"), true)])
             (BleakError "write failed") (Mock.mk true [])
             eq_refl eq_refl eq_refl eq_refl).
Defined.

(** C5, on two supported advertisers: the loop of [_discover_device] has no
    [break], so the address kept is that of the last supported advertiser
    of the scan, not of the first. *)
Theorem C5_discovery_keeps_last_match :
  let scanner :=
    mkScanner (inr [Sample.micra_A; Sample.headset; Sample.micra_B]) in
  _address (self (snd (_discover_device scanner
                         (mkWorld (__init__ "u" "s" "t" None) []))))
  = Some "BB:BB:BB:BB:BB:BB"
  /\ fst (create Sample.idle_scanner "u" "s" "t" true (Some scanner))
     = inr (mkClient "u" "s" "t" (Some "BB:BB:BB:BB:BB:BB")
              (Some (BleakClient (inr "BB:BB:BB:BB:BB:BB")))).
Proof. vm_compute. split; reflexivity. Qed.

Lemma C6_no_match_device_not_found_witness :
  create Sample.idle_scanner "u" "s" "t" true
    (Some (mkScanner (inr [Sample.headset; Sample.unnamed])))
  = (inl (BluetoothDeviceNotFound "Couldn't find a machine"),
     mkWorld (mkClient "u" "s" "t" None None) []).
Proof.
  apply (C6_no_match_device_not_found Sample.idle_scanner "u" "s" "t" true
           (Some (mkScanner (inr [Sample.headset; Sample.unnamed])))
           (devices := [Sample.headset; Sample.unnamed]) eq_refl).
  intros d name [<- | [<- | []]] Hname; inversion Hname. reflexivity.
Defined.

Lemma C8_not_initialized_witness :
  address (mkClient "u" "s" "t" None (Some Sample.up))
  = inl (ClientNotInitialized "Bluetooth client not initialized")
  /\ run_command 2 (SetPower true)
       (Sample.session None (Some "AA:AA:AA:AA:AA:AA"))
     = (inl (ClientNotInitialized "Bluetooth client not initialized"),
        Sample.session None (Some "AA:AA:AA:AA:AA:AA")).
Proof.
  split.
  - exact (proj1 (C8_not_initialized 1 (SetPower true)
                    (Sample.session None None)
                    (mkClient "u" "s" "t" None (Some Sample.up)) "u" "s" "t")
             eq_refl).
  - exact (proj2 (proj2 (C8_not_initialized 1 (SetPower true)
                           (Sample.session None (Some "AA:AA:AA:AA:AA:AA"))
                           (mkClient "u" "s" "t" None None) "u" "s" "t"))
             eq_refl).
Defined.

Lemma C10_manual_binding_keeps_address_witness :
  let w := mkWorld (__init__ "u" "s" "t" None) [] in
  let r := new_client_from_ble_device 1 Sample.micra_A w in
  r = (inr tt,
       mkWorld (mkClient "u" "s" "t" None (Some Sample.up))
         [Connect; WriteGattChar AUTH_CHARACTERISTIC (encode_utf8 "dTpz@dA==")])
  /\ connected (self (snd r)) = true
  /\ address (self (snd r))
     = inl (ClientNotInitialized "Bluetooth client not initialized").
Proof.
  pose (w := mkWorld (__init__ "u" "s" "t" None) []).
  pose proof (C10_manual_binding_keeps_address 0 Sample.micra_A w) as H.
  destruct H as (_ & Haddr & Hbind).
  destruct (Hbind Sample.up Sample.up eq_refl eq_refl eq_refl) as (Hr & Hc).
  split; [exact Hr | split; [exact Hc | exact (Haddr eq_refl)]].
Defined.

(** ** The further properties on the scripted transport *)

Lemma X1_set_temp_bytes_witness :
  calls (snd (set_temp 1 Sample.COFFEE 94
                (Sample.session (Some Sample.up) (Some "AA:AA:AA:AA:AA:AA"))))
  = [WriteGattChar SETTINGS_CHARACTERISTIC
       (encode_utf8
          (dq ("{'name':'SettingBoilerTarget'," ++
               "'parameter':{'identifier':'CoffeeBoiler1','value':94}}"))
        ++ [x00])%list].
Proof.
  exact (X1_set_temp_bytes 0 Sample.COFFEE 94
           (Sample.session (Some Sample.up) _) eq_refl eq_refl eq_refl).
Defined.

Lemma X2_command_write_error_not_wrapped_witness :
  run_command 2 (SetPower true)
    (Sample.session (Some MoreSamples.write_refused)
       (Some "AA:AA:AA:AA:AA:AA"))
  = (inl (BleakError "gatt write failed"),
     mkWorld
       (mkClient "u" "s" "t" (Some "AA:AA:AA:AA:AA:AA") (Some Sample.up))
       [WriteGattChar SETTINGS_CHARACTERISTIC
          (encode_utf8
             (dq ("{'name':'MachineChangeMode'," ++
                  "'parameter':{'mode':'BrewingMode'}}"))
           ++ [x00])%list]).
Proof.
  exact (proj1 (X2_command_write_error_not_wrapped 0 (SetPower true)
                  (Sample.session (Some MoreSamples.write_refused) _)
                  (BleakError "gatt write failed") eq_refl)
           eq_refl Sample.up eq_refl).
Defined.

Lemma X3_other_errors_pass_through_witness :
  run_command 2 (SetSteam false)
    (Sample.session (Some MoreSamples.cancelled) (Some "AA:AA:AA:AA:AA:AA"))
  = (inl (OtherError "cancelled"),
     mkWorld
       (mkClient "u" "s" "t" (Some "AA:AA:AA:AA:AA:AA") (Some Sample.down))
       [Connect]).
Proof.
  exact (proj1 (X3_other_errors_pass_through 0 (SetSteam false)
                  (Sample.session (Some MoreSamples.cancelled) _)
                  (OtherError "cancelled") eq_refl eq_refl eq_refl)
           Sample.down eq_refl).
Defined.

Lemma X4_connection_reused_witness :
  calls (run_operations 2 [Command (SetPower true); Command (SetSteam true)]
           (Sample.session (Some Sample.down) (Some "AA:AA:AA:AA:AA:AA")))
  = [Connect;
     WriteGattChar AUTH_CHARACTERISTIC (encode_utf8 "dTpz@dA==");
     WriteGattChar SETTINGS_CHARACTERISTIC
       (encode_utf8
          (dq "{'name':'MachineChangeMode','parameter':{'mode':'BrewingMode'}}")
        ++ [x00])%list;
     WriteGattChar SETTINGS_CHARACTERISTIC
       (encode_utf8
          (dq ("{'name':'SettingBoilerEnable'," ++
               "'parameter':{'identifier':'SteamBoiler','state':true}}"))
        ++ [x00])%list].
Proof.
  exact (X4_connection_reused 0 (SetPower true) (SetSteam true)
           (Sample.session (Some Sample.down) _)
           (t1 := Sample.up) (t2 := Sample.up) (t3 := Sample.up)
           eq_refl eq_refl eq_refl eq_refl eq_refl eq_refl eq_refl).
Defined.

Lemma X5_reconnect_authenticates_again_witness :
  calls (run_operations 2 [Command (SetPower true); Command (SetPower false)]
           (Sample.session (Some MoreSamples.dropping)
              (Some "AA:AA:AA:AA:AA:AA")))
  = [Connect;
     WriteGattChar AUTH_CHARACTERISTIC (encode_utf8 "dTpz@dA==");
     WriteGattChar SETTINGS_CHARACTERISTIC
       (encode_utf8
          (dq "{'name':'MachineChangeMode','parameter':{'mode':'BrewingMode'}}")
        ++ [x00])%list;
     Connect;
     WriteGattChar AUTH_CHARACTERISTIC (encode_utf8 "dTpz@dA==");
     WriteGattChar SETTINGS_CHARACTERISTIC
       (encode_utf8
          (dq "{'name':'MachineChangeMode','parameter':{'mode':'StandBy'}}")
        ++ [x00])%list].
Proof.
  exact (X5_reconnect_authenticates_again 0 (SetPower true) (SetPower false)
           (Sample.session (Some MoreSamples.dropping) _)
           (t1 := Mock.mk true [(None, true); (None, false)])
           (t2 := Mock.mk true [(None, false)])
           (t3 := Sample.down) (t4 := Sample.up) (t5 := Sample.up)
           eq_refl eq_refl eq_refl eq_refl eq_refl eq_refl eq_refl
           eq_refl eq_refl eq_refl).
Defined.

Lemma X8_create_single_match_witness :
  create Sample.idle_scanner "u" "s" "t" true
    (Some (mkScanner
             (inr [Sample.headset; Sample.micra_A; Sample.unnamed])))
  = (inr (mkClient "u" "s" "t" (Some "AA:AA:AA:AA:AA:AA")
            (Some (BleakClient (inr "AA:AA:AA:AA:AA:AA")))),
     mkWorld
       (mkClient "u" "s" "t" (Some "AA:AA:AA:AA:AA:AA")
          (Some (BleakClient (inr "AA:AA:AA:AA:AA:AA")))) [])
  /\ address
       (mkClient "u" "s" "t" (Some "AA:AA:AA:AA:AA:AA")
          (Some (BleakClient (inr "AA:AA:AA:AA:AA:AA"))))
     = inr "AA:AA:AA:AA:AA:AA".
Proof.
  apply (X8_create_single_match (transport := Mock.transport)
           (const := Sample.const) Sample.idle_scanner "u" "s" "t" true
           (Some (mkScanner
                    (inr [Sample.headset; Sample.micra_A; Sample.unnamed])))
           [Sample.headset] [Sample.unnamed] Sample.micra_A
           eq_refl eq_refl).
  - intros x [<- | []]. reflexivity.
  - intros x [<- | []]. reflexivity.
  - discriminate.
Defined.

Lemma X9_create_scan_error_passes_witness :
  create Sample.idle_scanner "u" "s" "t" true
    (Some MoreSamples.failing_scanner)
  = (inl (BleakError "adapter is off"),
     mkWorld (mkClient "u" "s" "t" None None) []).
Proof.
  exact (X9_create_scan_error_passes Sample.idle_scanner "u" "s" "t" true
           (Some MoreSamples.failing_scanner) eq_refl).
Defined.

Lemma X10_create_without_client_witness :
  connected (mkClient "u" "s" "t" (Some "AA:AA:AA:AA:AA:AA") None) = false
  /\ run_command 2 (SetPower true)
       (Sample.session None (Some "AA:AA:AA:AA:AA:AA"))
     = (inl (ClientNotInitialized "Bluetooth client not initialized"),
        Sample.session None (Some "AA:AA:AA:AA:AA:AA")).
Proof.
  pose proof (X10_create_without_client Sample.idle_scanner "u" "s" "t"
                (Some (mkScanner (inr [Sample.micra_A])))
                (c := mkClient "u" "s" "t" (Some "AA:AA:AA:AA:AA:AA") None)
                (w := Sample.session None (Some "AA:AA:AA:AA:AA:AA"))
                eq_refl) as (_ & _ & Hconn & Hcmd).
  split; [exact Hconn | exact (Hcmd 1 (SetPower true))].
Defined.

Lemma X11_failed_binding_replaces_handle_witness :
  new_client_from_ble_device (transport := Refusing.transport) 1
    Sample.micra_B
    (Sample.session (Some Sample.up) (Some "AA:AA:AA:AA:AA:AA"))
  = (inl (BluetoothConnectionFailed
            "Failed to connect to machine with Bluetooth: timed out"
            (TimeoutError "timed out")),
     mkWorld
       (mkClient "u" "s" "t" (Some "AA:AA:AA:AA:AA:AA") (Some Sample.down))
       [Connect]).
Proof.
  exact (X11_failed_binding_replaces_handle (transport := Refusing.transport)
           1 Sample.micra_B
           (Sample.session (Some Sample.up) (Some "AA:AA:AA:AA:AA:AA"))
           (e := TimeoutError "timed out") (t1 := Sample.down) eq_refl).
Defined.

Lemma X12_link_never_up_recursion_witness :
  fst (run_command (transport := Stuck.transport) 3 (SetPower true)
         MoreSamples.stuck_session)
  = inl RecursionError
  /\ calls (snd (run_command (transport := Stuck.transport) 3 (SetPower true)
                   MoreSamples.stuck_session))
     = [Connect; Connect; Connect].
Proof.
  apply (X12_link_never_up_recursion (transport := Stuck.transport)
           (fun _ => True) 3 (SetPower true) MoreSamples.stuck_session
           (t := tt)).
  - intros t0 _. split; [reflexivity|]. exists tt. split; [reflexivity|exact I].
  - reflexivity.
  - exact I.
Defined.

(** ** The encoders on known texts *)

Example b64_f : Base64.b64encode (encode_utf8 "f") = encode_utf8 "Zg==".
Proof. reflexivity. Qed.

Example b64_fo : Base64.b64encode (encode_utf8 "fo") = encode_utf8 "Zm8=".
Proof. reflexivity. Qed.

Example b64_foobar :
  Base64.b64encode (encode_utf8 "foobar") = encode_utf8 "Zm9vYmFy".
Proof. reflexivity. Qed.

Example dumps_int :
  dumps (JDict [("a", JInt (-94)); ("b", JInt 0)]) = dq "{'a':-94,'b':0}".
Proof. reflexivity. Qed.

(** A line feed, a double quote, a backslash, U+00E9, U+1F600 and a tilde. *)
Example dumps_escapes :
  dumps (JStr (String "010" (String "034" (String "\"
          (String "195" (String "169"
          (String "240" (String "159" (String "152" (String "128" "~"))))))))))
  = dq "'\n\" ++ quote ++ dq "\\\u00e9\ud83d\ude00~'".
Proof. reflexivity. Qed.
